(** * Sovereign-Portfolio-AI: a shallow embedding of the backend in Rocq

    The development follows the Python sources:
    - [src/backend/vector_store.py]   (PortfolioVectorStore)
    - [src/backend/data_processor.py] (PortfolioDataProcessor)
    - [src/backend/ai_engine.py]      (_parse_recommendations)
    - [src/frontend/utils.py]         (calculate_portfolio_metrics)

    Numbers are modelled as exact rationals [Q]; float32/float64 rounding
    is not modelled.  Python exceptions are modelled by the [res] error
    monad, and every [try ... except] of the sources by an explicit
    match on [Err]. *)

From Stdlib Require Import QArith Qabs List Permutation Sorted Lia.
From Stdlib Require Import String Ascii Lqa DecimalString.
From stdpp Require Import base gmap strings list.

Open Scope Q_scope.
Set Warnings "-register-all".

(* ------------------------------------------------------------------ *)
(** ** Python values, exceptions and the error monad *)

Inductive pyval : Type :=
| PNum (q : Q)
| PStr (s : string)
| PNone
| PDict (kv : list (string * pyval))
| PList (l : list pyval).

(** A Python dict with string keys, as an association list in
    insertion order (keys are unique; lookup takes the first binding). *)
Definition pydict := list (string * pyval).

Inductive pyexc : Type :=
| ZeroDivisionError
| TypeError
| AttributeError
| KeyError
| IndexError
| ValueError (msg : string)
| OSError.

Inductive res (A : Type) : Type :=
| Ok (a : A)
| Err (e : pyexc).
Arguments Ok {A} a.
Arguments Err {A} e.

Definition res_bind {A B} (c : res A) (k : A -> res B) : res B :=
  match c with Ok a => k a | Err e => Err e end.

Notation "'let*' x := c 'in' k" := (res_bind c (fun x => k))
  (at level 200, x name, c at level 100, k at level 200).

Fixpoint res_mapM {A B} (f : A -> res B) (l : list A) : res (list B) :=
  match l with
  | [] => Ok []
  | x :: l' => let* y := f x in let* ys := res_mapM f l' in Ok (y :: ys)
  end.

Fixpoint assoc (kv : pydict) (k : string) : option pyval :=
  match kv with
  | [] => None
  | (k', v) :: kv' => if String.eqb k k' then Some v else assoc kv' k
  end.

(** [k in d] *)
Definition dict_has (d : pydict) (k : string) : bool :=
  match assoc d k with Some _ => true | None => false end.

(** [v.get(k, default)]: only a dict has [get]. *)
Definition py_get (v : pyval) (k : string) (default : pyval) : res pyval :=
  match v with
  | PDict kv => Ok (match assoc kv k with Some x => x | None => default end)
  | _ => Err AttributeError
  end.

(** [d.get(k, default)] on a dict known to be one. *)
Definition dict_get (d : pydict) (k : string) (default : pyval) : pyval :=
  match assoc d k with Some x => x | None => default end.

(** Python truthiness. *)
Definition truthy (v : pyval) : bool :=
  match v with
  | PNum q => negb (Qeq_bool q 0)
  | PStr s => negb (String.eqb s "")
  | PNone => false
  | PDict kv => match kv with [] => false | _ => true end
  | PList l => match l with [] => false | _ => true end
  end.

(** [a < b] on numbers. *)
Definition Qlt_bool (a b : Q) : bool := negb (Qle_bool b a).

(** [a / b] on Python numbers. *)
Definition py_div (a b : Q) : res Q :=
  if Qeq_bool b 0 then Err ZeroDivisionError else Ok (a / b).

(** [sum(xs)]: adds left to right from the integer 0; a non-number
    raises. *)
Fixpoint py_sum_from (acc : Q) (xs : list pyval) : res Q :=
  match xs with
  | [] => Ok acc
  | PNum q :: xs' => py_sum_from (acc + q) xs'
  | _ :: _ => Err TypeError
  end.

Definition py_sum (xs : list pyval) : res Q := py_sum_from 0 xs.

(* ------------------------------------------------------------------ *)
(** ** Descending stable sort on a rational key

    Used for Python's [sorted(..., reverse=True)], pandas' [nlargest]
    and the ordering of FAISS search hits. *)

Section SortDesc.
Context {A : Type} (key : A -> Q).

Fixpoint insert_desc (x : A) (l : list A) : list A :=
  match l with
  | [] => [x]
  | y :: l' => if Qle_bool (key y) (key x) then x :: l else y :: insert_desc x l'
  end.

Definition sort_desc (l : list A) : list A := fold_right insert_desc [] l.

Definition desc (a b : A) : Prop := key b <= key a.
End SortDesc.

(* ------------------------------------------------------------------ *)
(** ** Python [str] methods on ASCII strings *)

Module PyStr.

Definition nl : string := String (ascii_of_nat 10) EmptyString.

(** [str.isspace] on ASCII: space, \t \n \v \f \r and \x1c..\x1f. *)
Definition is_space (c : ascii) : bool :=
  let n := nat_of_ascii c in
  Nat.eqb n 32 || (Nat.leb 9 n && Nat.leb n 13) || (Nat.leb 28 n && Nat.leb n 31).

Definition is_digit (c : ascii) : bool :=
  let n := nat_of_ascii c in Nat.leb 48 n && Nat.leb n 57.

Fixpoint lstrip (s : string) : string :=
  match s with
  | EmptyString => EmptyString
  | String c s' => if is_space c then lstrip s' else s
  end.

Fixpoint rev_str (s : string) : string :=
  match s with
  | EmptyString => EmptyString
  | String c s' => (rev_str s' ++ String c EmptyString)%string
  end.

Definition rstrip (s : string) : string := rev_str (lstrip (rev_str s)).

Definition strip (s : string) : string := rstrip (lstrip s).

Definition lower_char (c : ascii) : ascii :=
  let n := nat_of_ascii c in
  if Nat.leb 65 n && Nat.leb n 90 then ascii_of_nat (n + 32) else c.

Fixpoint lower (s : string) : string :=
  match s with
  | EmptyString => EmptyString
  | String c s' => String (lower_char c) (lower s')
  end.

Fixpoint starts_with (p s : string) : bool :=
  match p, s with
  | EmptyString, _ => true
  | String a p', String b s' => Ascii.eqb a b && starts_with p' s'
  | String _ _, EmptyString => false
  end.

(** [p in s] *)
Fixpoint contains (p s : string) : bool :=
  match s with
  | EmptyString => starts_with p s
  | String _ s' => starts_with p s || contains p s'
  end.

(** [s[:n]] *)
Fixpoint prefix (n : nat) (s : string) : string :=
  match n, s with
  | O, _ => EmptyString
  | S n', String c s' => String c (prefix n' s')
  | S _, EmptyString => EmptyString
  end.

(** [s.split(sep)] for a one-character separator. *)
Fixpoint split_char (sep : ascii) (s : string) : list string :=
  match s with
  | EmptyString => [EmptyString]
  | String c s' =>
      if Ascii.eqb c sep then EmptyString :: split_char sep s'
      else match split_char sep s' with
           | w :: ws => String c w :: ws
           | [] => [String c EmptyString]
           end
  end.

(** [s.split(sep, 1)]: [None] when [sep] does not occur. *)
Fixpoint split_once (sep : ascii) (s : string) : option (string * string) :=
  match s with
  | EmptyString => None
  | String c s' =>
      if Ascii.eqb c sep then Some (EmptyString, s')
      else match split_once sep s' with
           | Some (a, b) => Some (String c a, b)
           | None => None
           end
  end.

End PyStr.

(* ------------------------------------------------------------------ *)
(** ** vector_store.py: [PortfolioVectorStore._create_embeddings] *)

Module VectorStore.

Section Embeddings.
(** [float(s)] on a string: Python parses numeric literals. *)
Variable parse_float : string -> option Q.

Definition py_float (v : pyval) : res Q :=
  match v with
  | PNum q => Ok q
  | PStr s => match parse_float s with
              | Some q => Ok q
              | None => Err (ValueError "could not convert string to float")
              end
  | _ => Err TypeError
  end.

(** [float(x.get(k, 0))] *)
Definition get_float (x : pyval) (k : string) : res Q :=
  let* v := py_get x k (PNum 0) in py_float v.

Definition portfolio_features (portfolio : pyval) : res (list Q) :=
  let* aum := get_float portfolio "total_aum" in
  let* tr := get_float portfolio "target_return" in
  let* th := get_float portfolio "total_holdings" in
  Ok [aum / inject_Z 1000000000; tr; th / 100].

Definition performance_features (perf : pyval) : res (list Q) :=
  let* a := get_float perf "total_return" in
  let* b := get_float perf "daily_return" in
  let* c := get_float perf "volatility" in
  let* d := get_float perf "sharpe_ratio" in
  let* e := get_float perf "max_drawdown" in
  let* f := get_float perf "active_return" in
  Ok [a; b; c; d; e; f].

Definition risk_features (risk : pyval) : res (list Q) :=
  let* a := get_float risk "portfolio_beta" in
  let* b := get_float risk "var_95" in
  let* c := get_float risk "tracking_error" in
  let* d := get_float risk "correlation_benchmark" in
  let* e := get_float risk "concentration_risk" in
  let* f := get_float risk "liquidity_score" in
  Ok [a; b / inject_Z 1000000; c; d; e; f / 10].

(** [sectors.values()]: only a dict has [values]. *)
Definition py_values (v : pyval) : res (list pyval) :=
  match v with
  | PDict kv => Ok (map snd kv)
  | _ => Err AttributeError
  end.

(** [sorted(xs, reverse=True)] on numbers. *)
Definition py_nums (xs : list pyval) : res (list Q) :=
  res_mapM (fun v => match v with PNum q => Ok q | _ => Err TypeError end) xs.

Definition sector_features (sectors : pyval) : res (list Q) :=
  if truthy sectors then
    let* vals := py_values sectors in
    let* total_value := py_sum vals in
    let* ws := py_nums vals in
    let sector_weights := firstn 5 (sort_desc id ws) in
    let* normalized_weights := res_mapM (fun w => py_div w total_value) sector_weights in
    let* sq := res_mapM (fun w => let* x := py_div w total_value in Ok (x * x)) ws in
    let herfindahl := fold_left Qplus sq 0 in
    Ok (normalized_weights ++ [herfindahl])
  else
    (* total_value = 1, sector_weights = [0] * 5, herfindahl = 0 *)
    Ok (map (fun w => w / 1) (repeat 0 5) ++ [0]).

Definition opt_features (data : pydict) (k : string) (f : pyval -> res (list Q))
  : res (list Q) :=
  match assoc data k with
  | Some v => f v
  | None => Ok []
  end.

(** The [try] body up to the padding loop. *)
Definition extract_features (data : pydict) : res (list Q) :=
  let* f1 := opt_features data "portfolio_summary" portfolio_features in
  let* f2 := opt_features data "performance_summary" performance_features in
  let* f3 := opt_features data "risk_summary" risk_features in
  let* f4 := opt_features data "sector_allocation" sector_features in
  Ok (f1 ++ f2 ++ f3 ++ f4).

(** [while len(features) < self.dimension: features.append(0.0)] *)
Fixpoint pad_loop (fuel : nat) (dimension : nat) (features : list Q) : list Q :=
  match fuel with
  | O => features
  | S fuel' =>
      if Nat.ltb (length features) dimension
      then pad_loop fuel' dimension (features ++ [0])
      else features
  end.

(** Padding then [features[:self.dimension]]. *)
Definition pad_truncate (dimension : nat) (features : list Q) : list Q :=
  firstn dimension (pad_loop dimension dimension features).

Definition _create_embeddings (dimension : nat) (data : pydict) : list Q :=
  match extract_features data with
  | Ok features => pad_truncate dimension features
  | Err _ => repeat 0 dimension          (* np.zeros(self.dimension) *)
  end.
End Embeddings.

(** *** FAISS [IndexFlatIP] (the third-party index the store wraps)

    Modelled from FAISS's documented behaviour: [add] appends vectors
    of the index dimension (the Python wrapper asserts the width);
    [search(x, k)] scores every stored vector by its inner product with
    [x] and returns the [k] best hits by decreasing score, padding with
    label [-1] and score [-FLT_MAX] when fewer than [k] vectors are
    stored; [k] must be positive.  Ties are returned in insertion
    order (FAISS leaves their order unspecified). *)

Record index := mk_index { ix_d : nat; ix_vecs : list (list Q) }.

Definition ntotal (ix : index) : nat := length (ix_vecs ix).

Definition IndexFlatIP (d : nat) : index := mk_index d [].

Fixpoint inner (x y : list Q) : Q :=
  match x, y with
  | a :: x', b :: y' => a * b + inner x' y'
  | _, _ => 0
  end.

Definition index_add (ix : index) (x : list Q) : res index :=
  if Nat.eqb (length x) (ix_d ix)
  then Ok (mk_index (ix_d ix) (ix_vecs ix ++ [x]))
  else Err (ValueError "assert d == self.d").

Definition neg_flt_max : Q := - (inject_Z 340282346638528859811704183484516925440).

(** (score, label) hits of the [k] best vectors. *)
Definition scored (ix : index) (x : list Q) : list (Q * nat) :=
  combine (map (inner x) (ix_vecs ix)) (seq 0 (ntotal ix)).

Definition top_hits (ix : index) (x : list Q) (k : nat) : list (Q * nat) :=
  firstn k (sort_desc fst (scored ix x)).

Definition index_search (ix : index) (x : list Q) (k : nat) : res (list (Q * Z)) :=
  if negb (Nat.eqb (length x) (ix_d ix)) then Err (ValueError "assert d == self.d")
  else if Nat.eqb k 0 then Err (ValueError "k > 0")
  else
    let hits := top_hits ix x k in
    Ok (map (fun h => (fst h, Z.of_nat (snd h))) hits
        ++ repeat (neg_flt_max, (-1)%Z) (k - length hits)).

(** *** The store *)

Record metadata := mk_metadata {
  md_timestamp : string;
  md_data_summary : string;
  md_portfolio_name : pyval;
  md_total_return : pyval;
  md_volatility : pyval;
  md_risk_level : pyval }.

Record store := mk_store {
  dimension : nat;
  s_index : index;
  embeddings : list (list Q);
  s_metadata : list metadata;
  is_trained : bool }.

(** [PortfolioVectorStore(dimension)] *)
Definition init (d : nat) : store := mk_store d (IndexFlatIP d) [] [] false.

(** Python list indexing [xs[i]], negative indices counting from the end. *)
Definition py_index {A} (xs : list A) (i : Z) : res A :=
  let n := Z.of_nat (length xs) in
  if (0 <=? i)%Z && (i <? n)%Z then
    match nth_error xs (Z.to_nat i) with Some a => Ok a | None => Err IndexError end
  else if (- n <=? i)%Z && (i <? 0)%Z then
    match nth_error xs (Z.to_nat (n + i)) with Some a => Ok a | None => Err IndexError end
  else Err IndexError.

Record search_result := mk_result {
  similarity_score : Q;
  r_metadata : metadata;
  rank : nat }.

Section Store.
Variable parse_float : string -> option Q.
(** [format(value, spec)], the f-string conversion [{value:spec}]. *)
Variable py_format : pyval -> string -> res string.

Definition join (sep : string) (xs : list string) : string :=
  match xs with
  | [] => ""
  | x :: xs' => fold_left (fun acc y => acc ++ sep ++ y) xs' x
  end%string.

Definition fmt (prefix : string) (v : pyval) (spec : string) : res string :=
  let* s := py_format v spec in Ok (prefix ++ s)%string.

Definition section_parts (data : pydict) (k : string)
  (parts : pyval -> res (list string)) : res (list string) :=
  match assoc data k with Some v => parts v | None => Ok [] end.

Definition _create_data_summary (data : pydict) : res string :=
  let* p := section_parts data "portfolio_summary" (fun portfolio =>
    let* a := py_get portfolio "fund_name" (PStr "Unknown") in
    let* a := fmt "Portfolio: " a "" in
    let* b := py_get portfolio "total_aum" (PNum 0) in
    let* b := fmt "AUM: " b ",.0f" in
    let* c := py_get portfolio "risk_level" (PStr "Unknown") in
    let* c := fmt "Risk Level: " c "" in
    Ok [a; b; c]) in
  let* q := section_parts data "performance_summary" (fun perf =>
    let* a := py_get perf "total_return" (PNum 0) in
    let* a := fmt "Return: " a ".2%" in
    let* b := py_get perf "volatility" (PNum 0) in
    let* b := fmt "Volatility: " b ".2%" in
    let* c := py_get perf "sharpe_ratio" (PNum 0) in
    let* c := fmt "Sharpe: " c ".2f" in
    Ok [a; b; c]) in
  let* r := section_parts data "risk_summary" (fun risk =>
    let* a := py_get risk "portfolio_beta" (PNum 0) in
    let* a := fmt "Beta: " a ".2f" in
    let* b := py_get risk "var_95" (PNum 0) in
    let* b := fmt "VaR: " b ",.0f" in
    Ok [a; b]) in
  Ok (join " | " (p ++ q ++ r)).

(** [processed_data.get(k1, {}).get(k2, default)] *)
Definition get2 (data : pydict) (k1 k2 : string) (default : pyval) : res pyval :=
  py_get (dict_get data k1 (PDict [])) k2 default.

(** [timestamp or datetime.now().isoformat()]: [now] is the clock. *)
Definition make_metadata (now : string) (data : pydict) (timestamp : option string)
  : res metadata :=
  let ts := match timestamp with
            | Some t => if String.eqb t "" then now else t
            | None => now end in
  let* summary := _create_data_summary data in
  let* name := get2 data "portfolio_summary" "fund_name" (PStr "Unknown") in
  let* tr := get2 data "performance_summary" "total_return" (PNum 0) in
  let* vol := get2 data "performance_summary" "volatility" (PNum 0) in
  let* rl := get2 data "portfolio_summary" "risk_level" (PStr "Unknown") in
  Ok (mk_metadata ts summary name tr vol rl).

(** [add_portfolio_data]: returns the new state and the vector id, or
    re-raises. *)
Definition add_portfolio_data (now : string) (s : store) (data : pydict)
  (timestamp : option string) : res (store * nat) :=
  let embedding := _create_embeddings parse_float (dimension s) data in
  let* md := make_metadata now data timestamp in
  let* ix := index_add (s_index s) embedding in
  let vector_id := length (embeddings s) in
  Ok (mk_store (dimension s) ix (embeddings s ++ [embedding])
               (s_metadata s ++ [md]) true, vector_id).

(** The loop over [zip(scores[0], indices[0])] with its guard. *)
Fixpoint collect (mds : list metadata) (i : nat) (hits : list (Q * Z))
  : res (list search_result) :=
  match hits with
  | [] => Ok []
  | (score, idx) :: hits' =>
      if (idx <? Z.of_nat (length mds))%Z then
        let* md := py_index mds idx in
        let* rest := collect mds (S i) hits' in
        Ok (mk_result score md (S i) :: rest)
      else collect mds (S i) hits'
  end.

Definition search_similar_portfolios (s : store) (query_data : pydict) (k : nat)
  : list search_result :=
  if negb (is_trained s) || Nat.eqb (length (embeddings s)) 0 then []
  else
    let q := _create_embeddings parse_float (dimension s) query_data in
    match index_search (s_index s) q (Nat.min k (length (embeddings s))) with
    | Err _ => []
    | Ok hits => match collect (s_metadata s) 0 hits with
                 | Ok rs => rs
                 | Err _ => []
                 end
    end.

(** [container[key]] *)
Definition py_getitem (v : pyval) (k : string) : res pyval :=
  match v with
  | PDict kv => match assoc kv k with Some x => Ok x | None => Err KeyError end
  | _ => Err TypeError
  end.

(** [for holding in xs[:3]] over a list. *)
Definition py_take3 (v : pyval) : res (list pyval) :=
  match v with
  | PList l => Ok (firstn 3 l)
  | PStr s => if String.eqb s "" then Ok [] else Err TypeError
  | _ => Err TypeError
  end.

Definition get_context_for_query (s : store) (query : string) (current_data : pydict)
  : string :=
  let similar_portfolios := search_similar_portfolios s current_data 2 in
  let body :=
    let* p1 := (if dict_has current_data "portfolio_summary" then
                  let* sm := _create_data_summary current_data in
                  Ok ["CURRENT PORTFOLIO:"; sm]
                else Ok [])%string in
    let* p2 := (match similar_portfolios with
                | [] => Ok []
                | _ =>
                    let* lines := res_mapM (fun r =>
                      let* sc := py_format (PNum (similarity_score r)) ".3f" in
                      Ok ("- " ++ md_data_summary (r_metadata r)
                          ++ " (Similarity: " ++ sc ++ ")"))
                      similar_portfolios in
                    Ok ((PyStr.nl ++ "SIMILAR HISTORICAL PERIODS:") :: lines)
                end)%string in
    let query_lower := PyStr.lower query in
    let* p3 :=
      (if PyStr.contains "risk" query_lower then
         match assoc current_data "risk_summary" with
         | Some risk =>
             let* b := py_get risk "portfolio_beta" (PNum 0) in
             let* b := py_format b ".2f" in
             let* v := py_get risk "var_95" (PNum 0) in
             let* v := py_format v ",.0f" in
             let* t := py_get risk "tracking_error" (PNum 0) in
             let* t := py_format t ".3f" in
             Ok [PyStr.nl ++ "RISK CONTEXT:"; "Beta: " ++ b ++ ", VaR: " ++ v;
                 "Tracking Error: " ++ t]
         | None => Ok []
         end
       else if PyStr.contains "performance" query_lower
               || PyStr.contains "return" query_lower then
         match assoc current_data "performance_summary" with
         | Some perf =>
             let* a := py_get perf "total_return" (PNum 0) in
             let* a := py_format a ".2%" in
             let* b := py_get perf "volatility" (PNum 0) in
             let* b := py_format b ".2%" in
             let* c := py_get perf "sharpe_ratio" (PNum 0) in
             let* c := py_format c ".2f" in
             Ok [PyStr.nl ++ "PERFORMANCE CONTEXT:"; "Total Return: " ++ a;
                 "Volatility: " ++ b; "Sharpe Ratio: " ++ c]
         | None => Ok []
         end
       else if PyStr.contains "holding" query_lower
               || PyStr.contains "sector" query_lower then
         match assoc current_data "top_holdings" with
         | Some th =>
             let* hs := py_take3 th in
             let* lines := res_mapM (fun h =>
               let* n := py_getitem h "Asset_Name" in
               let* n := py_format n "" in
               let* w := py_getitem h "Weight_Percent" in
               let* w := py_format w ".1%" in
               Ok ("- " ++ n ++ ": " ++ w)) hs in
             Ok ((PyStr.nl ++ "HOLDINGS CONTEXT:") :: lines)
         | None => Ok []
         end
       else Ok [])%string in
    Ok (join PyStr.nl (p1 ++ p2 ++ p3)) in
  match body with
  | Ok r => r
  | Err _ => "Current portfolio data available for analysis."
  end.
End Store.

Record stats := mk_stats {
  total_vectors : nat;
  st_dimension : nat;
  st_is_trained : bool;
  index_size : nat }.

Definition get_stats (s : store) : stats :=
  mk_stats (length (embeddings s)) (dimension s) (is_trained s) (ntotal (s_index s)).

(** *** Persistence: [save_index] / [load_index]

    The file system maps paths to files.  A [.index] file holds a FAISS
    index ([faiss.write_index]); a [.metadata] file holds the pickled
    dict; pickling these plain values round-trips them unchanged.  Any
    other content fails to be read back. *)

Record pickled := mk_pickled {
  pk_embeddings : list (list Q);
  pk_metadata : list metadata;
  pk_dimension : nat;
  pk_is_trained : bool }.

Inductive file :=
| FIndex (ix : index)
| FPickle (p : pickled)
| FOther.

Definition fs := gmap string file.

Definition index_path (filepath : string) : string := (filepath ++ ".index")%string.
Definition metadata_path (filepath : string) : string := (filepath ++ ".metadata")%string.

Definition save_index (s : store) (fsys : fs) (filepath : string) : fs :=
  let fsys1 := <[index_path filepath := FIndex (s_index s)]> fsys in
  <[metadata_path filepath :=
      FPickle (mk_pickled (embeddings s) (s_metadata s) (dimension s) (is_trained s))]> fsys1.

(** Returns the new state and the returned boolean.  The index is
    assigned before the metadata file is opened, as in the source. *)
Definition load_index (s : store) (fsys : fs) (filepath : string) : store * bool :=
  match fsys !! index_path filepath with
  | None => (s, false)
  | Some (FIndex ix) =>
      let s1 := mk_store (dimension s) ix (embeddings s) (s_metadata s) (is_trained s) in
      match fsys !! metadata_path filepath with
      | Some (FPickle p) =>
          (mk_store (pk_dimension p) ix (pk_embeddings p) (pk_metadata p) (pk_is_trained p),
           true)
      | _ => (s1, false)      (* open / pickle.load raised *)
      end
  | Some _ => (s, false)      (* faiss.read_index raised *)
  end.

(** *** Operations of the store, as one step on (store, file system) *)

Inductive op :=
| OpAdd (data : pydict) (timestamp : option string)
| OpSearch (query_data : pydict) (k : nat)
| OpContext (query : string) (current_data : pydict)
| OpStats
| OpSave (filepath : string)
| OpLoad (filepath : string).

Section Step.
Variable parse_float : string -> option Q.
Variable py_format : pyval -> string -> res string.
Variable now : string.

(** A raising call leaves the state as it was. *)
Definition step (st : store * fs) (o : op) : store * fs :=
  let (s, fsys) := st in
  match o with
  | OpAdd d ts =>
      match add_portfolio_data parse_float py_format now s d ts with
      | Ok (s', _) => (s', fsys)
      | Err _ => (s, fsys)
      end
  | OpSearch _ _ | OpContext _ _ | OpStats => (s, fsys)
  | OpSave p => (s, save_index s fsys p)
  | OpLoad p => (fst (load_index s fsys p), fsys)
  end.

(** [n] calls of [add_portfolio_data], all of them succeeding: the
    final state and the returned ids. *)
Fixpoint run_adds (s : store) (calls : list (pydict * option string))
  : res (store * list nat) :=
  match calls with
  | [] => Ok (s, [])
  | (d, ts) :: calls' =>
      let* r := add_portfolio_data parse_float py_format now s d ts in
      let* r' := run_adds (fst r) calls' in
      Ok (fst r', snd r :: snd r')
  end.
End Step.

(** The store's own bookkeeping agrees with the FAISS index: the index
    holds exactly the stored embeddings, at the store's dimension, one
    metadata record per embedding, and a non-empty store is trained. *)
Definition wf (s : store) : Prop :=
  ix_vecs (s_index s) = embeddings s /\
  ix_d (s_index s) = dimension s /\
  length (s_metadata s) = length (embeddings s) /\
  (embeddings s <> [] -> is_trained s = true).

(** [len(self.embeddings) == len(self.metadata) == self.index.ntotal] *)
Definition lockstep (s : store) : Prop :=
  length (embeddings s) = length (s_metadata s) /\
  length (embeddings s) = ntotal (s_index s).

End VectorStore.

(* ------------------------------------------------------------------ *)
(** ** data_processor.py: [PortfolioDataProcessor] *)

Module DataProcessor.

(** *** [load_excel_file]: the sheet validation

    [excel_data] is the dict returned by [pd.read_excel(file_path,
    sheet_name=None)]: sheet name to DataFrame.  What follows a passed
    validation ([_clean_data] and [_calculate_metrics]) is the
    parameter [clean_and_calculate]. *)

Definition expected_sheets : list string :=
  ["Portfolio_Overview"; "Holdings_Detail"; "Historical_Performance";
   "Benchmarks"; "Risk_Metrics"; "Cash_Flows"; "Market_Data"].

Section Load.
Context {DataFrame : Type}.

Definition sheet_in (name : string) (excel_data : list (string * DataFrame)) : bool :=
  existsb (fun kv => String.eqb (fst kv) name) excel_data.

(** [for sheet in expected_sheets: if sheet not in excel_data: raise ...] *)
Fixpoint validate (sheets : list string) (excel_data : list (string * DataFrame))
  : res unit :=
  match sheets with
  | [] => Ok tt
  | sheet :: sheets' =>
      if sheet_in sheet excel_data then validate sheets' excel_data
      else Err (ValueError ("Missing required sheet: " ++ sheet))
  end.

Definition load_excel_file {R : Type}
  (clean_and_calculate : list (string * DataFrame) -> res R)
  (excel_data : list (string * DataFrame)) : res R :=
  let* _ := validate expected_sheets excel_data in
  clean_and_calculate excel_data.
End Load.

(** *** Holdings_Detail and the [top_holdings] / [sector_allocation]
    aggregates of [_calculate_metrics].  Market_Value after
    [pd.to_numeric] is a number. *)

Record holding := mk_holding {
  Asset_Name : string;
  Ticker_Symbol : string;
  Market_Value : Q;
  Weight_Percent : Q;
  Sector : string;
  other_columns : list (string * pyval) }.

(** One record of [...[['Asset_Name', 'Ticker_Symbol', 'Market_Value',
    'Weight_Percent', 'Sector']].to_dict('records')]. *)
Record top_holding := mk_top_holding {
  th_Asset_Name : string;
  th_Ticker_Symbol : string;
  th_Market_Value : Q;
  th_Weight_Percent : Q;
  th_Sector : string }.

Definition project (h : holding) : top_holding :=
  mk_top_holding (Asset_Name h) (Ticker_Symbol h) (Market_Value h)
                 (Weight_Percent h) (Sector h).

(** [df.nlargest(n, 'Market_Value')] with [keep='first']: rows by
    decreasing value, ties in row order. *)
Definition nlargest (n : nat) (rows : list holding) : list holding :=
  firstn n (sort_desc Market_Value rows).

Definition top_holdings (holdings : list holding) : list top_holding :=
  map project (nlargest 10 holdings).

(** [holdings.groupby('Sector')['Market_Value'].sum().to_dict()] *)
Definition group_sum (m : gmap string Q) (h : holding) : gmap string Q :=
  <[Sector h := default 0 (m !! Sector h) + Market_Value h]> m.

Definition sector_allocation (holdings : list holding) : gmap string Q :=
  fold_left group_sum holdings ∅.

(** *** Time-series sheets: [_clean_data] sorts by Date, and
    [_calculate_metrics] reads [iloc[-1]].  A Date is a timestamp;
    [pd.to_datetime] maps an empty cell to NaT ([None]).
    [sort_values('Date')] puts NaT last ([na_position='last']). *)

Record ts_row := mk_ts_row {
  Date : option Z;
  columns : list (string * pyval) }.

Definition date_le (a b : option Z) : bool :=
  match a, b with
  | Some x, Some y => (x <=? y)%Z
  | Some _, None => true
  | None, Some _ => false
  | None, None => true
  end.

Fixpoint insert_by_date (r : ts_row) (rows : list ts_row) : list ts_row :=
  match rows with
  | [] => [r]
  | r' :: rows' => if date_le (Date r) (Date r') then r :: rows
                   else r' :: insert_by_date r rows'
  end.

Definition sort_values_Date (rows : list ts_row) : list ts_row :=
  fold_right insert_by_date [] rows.

(** [df.iloc[-1]] *)
Definition iloc_last (rows : list ts_row) : res ts_row :=
  match rev rows with
  | r :: _ => Ok r
  | [] => Err IndexError
  end.

Definition row_get (r : ts_row) (col : string) : res pyval :=
  match assoc (columns r) col with Some v => Ok v | None => Err KeyError end.

(** The [performance_summary] dict built from [latest_perf]. *)
Definition perf_fields (latest_perf : ts_row) : res (list (string * pyval)) :=
  let* a := row_get latest_perf "Portfolio_Value" in
  let* b := row_get latest_perf "Cumulative_Return" in
  let* c := row_get latest_perf "Daily_Return" in
  let* d := row_get latest_perf "Volatility" in
  let* e := row_get latest_perf "Sharpe_Ratio" in
  let* f := row_get latest_perf "Max_Drawdown" in
  let* g := row_get latest_perf "Active_Return" in
  Ok [("current_value", a); ("total_return", b); ("daily_return", c);
      ("volatility", d); ("sharpe_ratio", e); ("max_drawdown", f);
      ("active_return", g)].

Definition performance_summary (perf : list ts_row) : res (list (string * pyval)) :=
  let* latest_perf := iloc_last perf in
  perf_fields latest_perf.

(** The [risk_summary] dict built from [latest_risk]. *)
Definition risk_fields (latest_risk : ts_row) : res (list (string * pyval)) :=
  let* a := row_get latest_risk "Portfolio_Beta" in
  let* b := row_get latest_risk "VaR_95" in
  let* c := row_get latest_risk "CVaR_95" in
  let* d := row_get latest_risk "Tracking_Error" in
  let* e := row_get latest_risk "Correlation_Benchmark" in
  let* f := row_get latest_risk "Concentration_Risk" in
  let* g := row_get latest_risk "Liquidity_Score" in
  Ok [("portfolio_beta", a); ("var_95", b); ("cvar_95", c);
      ("tracking_error", d); ("correlation_benchmark", e);
      ("concentration_risk", f); ("liquidity_score", g)].

Definition risk_summary (risk : list ts_row) : res (list (string * pyval)) :=
  let* latest_risk := iloc_last risk in
  risk_fields latest_risk.

(** The parts of a loaded workbook the aggregates read. *)
Record tables := mk_tables {
  Holdings_Detail : list holding;
  Historical_Performance : list ts_row;
  Risk_Metrics : list ts_row }.

(** [_clean_data] on the time-series sheets ([self.data[sheet_name] =
    df.sort_values('Date')]); Holdings_Detail keeps its row order. *)
Definition clean_data (t : tables) : tables :=
  mk_tables (Holdings_Detail t) (sort_values_Date (Historical_Performance t))
            (sort_values_Date (Risk_Metrics t)).

Record processed := mk_processed {
  p_top_holdings : list top_holding;
  p_sector_allocation : gmap string Q;
  p_performance_summary : list (string * pyval);
  p_risk_summary : list (string * pyval) }.

Definition calculate_metrics (t : tables) : res processed :=
  let th := top_holdings (Holdings_Detail t) in
  let sa := sector_allocation (Holdings_Detail t) in
  let* ps := performance_summary (Historical_Performance t) in
  let* rs := risk_summary (Risk_Metrics t) in
  Ok (mk_processed th sa ps rs).

(** [_clean_data(); _calculate_metrics()] after a passed validation. *)
Definition process (t : tables) : res processed := calculate_metrics (clean_data t).

End DataProcessor.

(* ------------------------------------------------------------------ *)
(** ** ai_engine.py: [PortfolioAIEngine._parse_recommendations] *)

Module AIEngine.
Import PyStr.

Record recommendation := mk_rec {
  title : string;
  description : string;
  priority : string;
  rationale : string;
  impact : string }.

(** [line[0]] *)
Definition first_char (s : string) : res ascii :=
  match s with String c _ => Ok c | EmptyString => Err IndexError end.

(** [line.split('.', 1)[1]] *)
Definition after_dot (s : string) : res string :=
  match split_once "."%char s with Some (_, b) => Ok b | None => Err IndexError end.

(** One iteration of the [for line in lines] loop; the state is
    [(recommendations, current_rec)], [None] standing for the empty
    dict [{}]. *)
Definition parse_line (st : list recommendation * option recommendation) (raw : string)
  : res (list recommendation * option recommendation) :=
  let (recs, current_rec) := st in
  let line := strip raw in
  if String.eqb line "" then Ok st
  else
    let* c := first_char line in
    if is_digit c && contains "." (prefix 3 line) then
      let recs' := match current_rec with Some r => recs ++ [r] | None => recs end in
      let* t := after_dot line in
      Ok (recs', Some (mk_rec (strip t) "" "Medium" "" ""))
    else
      match current_rec with
      | Some r =>
          if contains "priority" (lower line) then
            if contains "high" (lower line) then
              Ok (recs, Some (mk_rec (title r) (description r) "High" (rationale r) (impact r)))
            else if contains "low" (lower line) then
              Ok (recs, Some (mk_rec (title r) (description r) "Low" (rationale r) (impact r)))
            else Ok st
          else
            Ok (recs, Some (mk_rec (title r) (description r ++ " " ++ line)
                                   (priority r) (rationale r ++ " " ++ line) (impact r)))
      | None => Ok st
      end.

Fixpoint parse_lines (st : list recommendation * option recommendation) (lines : list string)
  : res (list recommendation * option recommendation) :=
  match lines with
  | [] => Ok st
  | l :: ls => let* st' := parse_line st l in parse_lines st' ls
  end.

(** The clean-up loop over the parsed records. *)
Definition clean_up (r : recommendation) : recommendation :=
  let d := strip (description r) in
  let ra := strip (rationale r) in
  let d' := if String.eqb d "" then title r else d in
  let ra' := if String.eqb ra "" then d' else ra in
  mk_rec (title r) d' (priority r) ra' (impact r).

Definition try_body (text : string) : res (list recommendation) :=
  let* st := parse_lines ([], None) (split_char (ascii_of_nat 10) text) in
  let recs := match snd st with Some r => fst st ++ [r] | None => fst st end in
  Ok (map clean_up recs).

(** [str(i + 1)] for the small indices of the fallback path. *)
Definition digit_string (n : nat) : string :=
  String (ascii_of_nat (48 + n)) EmptyString.

(** The [except] branch. *)
Definition fallback (text : string) : list recommendation :=
  let lines := List.filter (fun l => negb (String.eqb l "")) (map strip (split_char (ascii_of_nat 10) text)) in
  map (fun il => mk_rec ("Recommendation " ++ digit_string (S (fst il))) (snd il) "Medium"
                        (snd il) "Portfolio optimization")
      (combine (seq 0 (length (firstn 7 lines))) (firstn 7 lines)).

Definition _parse_recommendations (text : string) : list recommendation :=
  firstn 7 (match try_body text with
            | Ok recs => recs
            | Err _ => fallback text
            end).

End AIEngine.

(* ------------------------------------------------------------------ *)
(** ** frontend/utils.py: [calculate_portfolio_metrics] *)

Module Utils.

(** A metric value: a number or [float('inf')]. *)
Inductive metric := MNum (q : Q) | MInf.

(** [x > 0] on a Python value. *)
Definition py_gt0 (v : pyval) : res bool :=
  match v with PNum q => Ok (Qlt_bool 0 q) | _ => Err TypeError end.

(** [x < 0] *)
Definition py_lt0 (v : pyval) : res bool :=
  match v with PNum q => Ok (Qlt_bool q 0) | _ => Err TypeError end.

(** [a / b] on Python values. *)
Definition py_truediv (a b : pyval) : res Q :=
  match a, b with
  | PNum x, PNum y => py_div x y
  | _, _ => Err TypeError
  end.

(** [abs(x)] *)
Definition py_abs (v : pyval) : res pyval :=
  match v with PNum q => Ok (PNum (Qabs q)) | _ => Err TypeError end.

Definition perf_metrics (perf : pyval) : res (list (string * metric)) :=
  let* total_return := py_get perf "total_return" (PNum 0) in
  let* volatility := py_get perf "volatility" (PNum 0) in
  let* pos := py_gt0 volatility in
  let* rvr := (if pos then py_truediv total_return volatility else Ok 0) in
  let* max_drawdown := py_get perf "max_drawdown" (PNum 0) in
  let* neg := py_lt0 max_drawdown in
  let* rf := (if neg then
                let* a := py_abs max_drawdown in
                let* x := py_truediv total_return a in Ok (MNum x)
              else Ok MInf) in
  Ok [("return_volatility_ratio", MNum rvr); ("recovery_factor", rf)].

(** [[h.get('Weight_Percent', 0) for h in top_holdings[:n]]] *)
Definition weights (n : nat) (top_holdings : pyval) : res (list pyval) :=
  match top_holdings with
  | PList l => res_mapM (fun h => py_get h "Weight_Percent" (PNum 0)) (firstn n l)
  | _ => Err TypeError
  end.

Definition holdings_metrics (holdings : pyval) : res (list (string * metric)) :=
  let* top_holdings := py_get holdings "top_holdings" (PList []) in
  if truthy top_holdings then
    let* w5 := weights 5 top_holdings in
    let* top5 := py_sum w5 in
    let* w10 := weights 10 top_holdings in
    let* top10 := py_sum w10 in
    let* sector_allocation := py_get holdings "sector_allocation" (PDict []) in
    let* herf :=
      (if truthy sector_allocation then
         let* vals := VectorStore.py_values sector_allocation in
         let* total_value := py_sum vals in
         if Qlt_bool 0 total_value then
           let* sq := res_mapM (fun v =>
                        let* x := py_truediv v (PNum total_value) in Ok (PNum (x * x))) vals in
           let* h := py_sum sq in
           Ok [("sector_herfindahl", MNum h)]
         else Ok []
       else Ok []) in
    Ok ([("top_5_concentration", MNum top5); ("top_10_concentration", MNum top10)] ++ herf)
  else Ok [].

Definition calculate_portfolio_metrics (data : pydict) : res (list (string * metric)) :=
  let* m1 := (match assoc data "performance_summary" with
              | Some perf => perf_metrics perf
              | None => Ok [] end) in
  let* m2 := (match assoc data "holdings_data" with
              | Some holdings => holdings_metrics holdings
              | None => Ok [] end) in
  Ok (m1 ++ m2).

End Utils.

(* ------------------------------------------------------------------ *)
(** ** Python builtins on values, used by the code below *)

Module PyOps.

(** A string given by its UTF-8 bytes (for the non-ASCII literals). *)
Definition bytes_str (l : list nat) : string :=
  fold_right (fun n s => String (ascii_of_nat n) s) EmptyString l.

(** [len(v)].  Strings are byte strings here: for non-ASCII text
    Python counts code points, not bytes. *)
Definition py_len (v : pyval) : res nat :=
  match v with
  | PList l => Ok (length l)
  | PDict kv => Ok (length kv)
  | PStr s => Ok (String.length s)
  | _ => Err TypeError
  end.

(** [for x in v]: a dict yields its keys, a string its characters. *)
Definition py_iter (v : pyval) : res (list pyval) :=
  match v with
  | PList l => Ok l
  | PDict kv => Ok (map (fun kv => PStr (fst kv)) kv)
  | PStr s => Ok (map (fun c => PStr (String c EmptyString)) (list_ascii_of_string s))
  | _ => Err TypeError
  end.

(** [v.items()]: only a dict has [items]. *)
Definition py_items (v : pyval) : res (list (string * pyval)) :=
  match v with
  | PDict kv => Ok kv
  | _ => Err AttributeError
  end.

(** [k in v] for a string [k]: a key of a dict, an element of a list
    (only a string element can equal [k]), a substring of a string. *)
Definition py_contains (k : string) (v : pyval) : res bool :=
  match v with
  | PDict kv => Ok (dict_has kv k)
  | PList l => Ok (existsb (fun x => match x with PStr s => String.eqb s k | _ => false end) l)
  | PStr s => Ok (PyStr.contains k s)
  | _ => Err TypeError
  end.

(** Stable descending insertion sort for a boolean order. *)
Section SortBy.
Context {A : Type} (le : A -> A -> bool).

Fixpoint insert_desc_by (x : A) (l : list A) : list A :=
  match l with
  | [] => [x]
  | y :: l' => if le y x then x :: l else y :: insert_desc_by x l'
  end.

Definition sort_desc_by (l : list A) : list A := fold_right insert_desc_by [] l.
End SortBy.

Fixpoint all_nums {A} (ks : list (pyval * A)) : option (list (Q * A)) :=
  match ks with
  | [] => Some []
  | (PNum q, x) :: ks' =>
      match all_nums ks' with Some r => Some ((q, x) :: r) | None => None end
  | _ :: _ => None
  end.

Fixpoint all_strs {A} (ks : list (pyval * A)) : option (list (string * A)) :=
  match ks with
  | [] => Some []
  | (PStr s, x) :: ks' =>
      match all_strs ks' with Some r => Some ((s, x) :: r) | None => None end
  | _ :: _ => None
  end.

(** [sorted(xs, key=key, reverse=True)]: the keys are computed first
    (a raising key raises); a list of fewer than two elements is not
    compared; numbers compare as numbers and strings by code point; any
    other mix of keys raises [TypeError] (lists as keys, which Python
    compares element-wise, are not modelled and raise here).  Equal keys
    keep their order. *)
Definition py_sorted_desc {A} (key : A -> res pyval) (xs : list A) : res (list A) :=
  let* ks := res_mapM (fun x => let* k := key x in Ok (k, x)) xs in
  match xs with
  | [] | [_] => Ok xs
  | _ =>
      match all_nums ks with
      | Some qs => Ok (map snd (sort_desc fst qs))
      | None =>
          match all_strs ks with
          | Some ss => Ok (map snd (sort_desc_by (fun a b => String.leb (fst a) (fst b)) ss))
          | None => Err TypeError
          end
      end
  end.

(** Python's [xs[-n:]] *)
Definition py_tail {A} (n : nat) (xs : list A) : list A := skipn (length xs - n) xs.

(** [str(n)] of a Python int, through [format]. *)
Definition int_val (n : nat) : pyval := PNum (inject_Z (Z.of_nat n)).

End PyOps.

(* ------------------------------------------------------------------ *)
(** ** ai_engine.py: the state of [PortfolioAIEngine]

    After a successful [__init__] the engine holds a default
    [PortfolioVectorStore()] (dimension 384) and an empty chat history
    (the [vector_store] import succeeds; the [DummyVectorStore] fallback
    is not modelled).  The Gemini client is the outside world:
    [llm_configured] is [client.generate_content(full_prompt,
    generation_config=...)] and [llm_plain] the retry
    [client.generate_content(full_prompt)]; each raises or returns a
    response, given by what reading its [.text] gives.
    [datetime.now().isoformat()] is passed in as the timestamps it
    produces.  A method that raises [RuntimeError(...)] from its
    [except] clause returns [RuntimeError] with the caught exception. *)

Module Engine.
Import PyOps.

Record chat_msg := mk_msg {
  role : string;
  message : string;
  msg_timestamp : string }.

Record engine := mk_engine {
  vector_store : VectorStore.store;
  chat_history : list chat_msg }.

Definition new_engine : engine := mk_engine (VectorStore.init 384) [].

Inductive outcome (A : Type) : Type :=
| Returned (a : A)
| RuntimeError (cause : pyexc).
Arguments Returned {A} a.
Arguments RuntimeError {A} cause.

Record analysis := mk_analysis {
  analysis_text : string;
  an_timestamp : string;
  data_summary : string }.

Definition nl := PyStr.nl.

(** The indentation the triple-quoted system instructions carry. *)
Definition ind : string := "            ".

(** [₹] (the rupee sign) in UTF-8 *)
Definition rupee : string := bytes_str [226; 130; 185]%nat.

Section Engine.
Variable parse_float : string -> option Q.
Variable py_format : pyval -> string -> res string.
(** A Gemini response, by the outcome of [response.text]. *)
Definition response : Type := res string.

Variable llm_configured : string -> res response.
Variable llm_plain : string -> res response.

(** The retry covers only the call; [response.text] is read after it. *)
Definition _generate_content (prompt system_instruction : string) : res string :=
  let full_prompt := (system_instruction ++ nl ++ nl ++ prompt)%string in
  let* response := match llm_configured full_prompt with
                   | Ok r => Ok r
                   | Err _ => llm_plain full_prompt
                   end in
  response.

(** [{x.get(k, d):spec}] *)
Definition fld (x : pyval) (k : string) (d : pyval) (spec : string) : res string :=
  let* v := py_get x k d in py_format v spec.

Definition portfolio_lines (portfolio : pyval) : res (list string) :=
  let* a := fld portfolio "fund_name" (PStr "Unknown") "" in
  let* b := fld portfolio "total_aum" (PNum 0) ",.0f" in
  let* c := fld portfolio "base_currency" (PStr "INR") "" in
  let* d := fld portfolio "total_holdings" (PNum 0) "" in
  let* e := fld portfolio "target_return" (PNum 0) ".1%" in
  let* f := fld portfolio "risk_level" (PStr "Unknown") "" in
  Ok ["PORTFOLIO OVERVIEW:"; "Fund: " ++ a; "AUM: " ++ b ++ " " ++ c;
      "Holdings: " ++ d; "Target Return: " ++ e; "Risk Level: " ++ f; ""]%string.

Definition performance_lines (perf : pyval) : res (list string) :=
  let* a := fld perf "current_value" (PNum 0) ",.0f" in
  let* b := fld perf "total_return" (PNum 0) ".2%" in
  let* c := fld perf "daily_return" (PNum 0) ".2%" in
  let* d := fld perf "volatility" (PNum 0) ".2%" in
  let* e := fld perf "sharpe_ratio" (PNum 0) ".2f" in
  let* f := fld perf "max_drawdown" (PNum 0) ".2%" in
  let* g := fld perf "active_return" (PNum 0) ".2%" in
  Ok ["PERFORMANCE METRICS:"; "Current Value: " ++ a; "Total Return: " ++ b;
      "Daily Return: " ++ c; "Volatility: " ++ d; "Sharpe Ratio: " ++ e;
      "Max Drawdown: " ++ f; "Active Return: " ++ g; ""]%string.

Definition risk_lines (risk : pyval) : res (list string) :=
  let* a := fld risk "portfolio_beta" (PNum 0) ".2f" in
  let* b := fld risk "var_95" (PNum 0) ",.0f" in
  let* c := fld risk "cvar_95" (PNum 0) ",.0f" in
  let* d := fld risk "tracking_error" (PNum 0) ".3f" in
  let* e := fld risk "correlation_benchmark" (PNum 0) ".3f" in
  let* f := fld risk "concentration_risk" (PNum 0) ".3f" in
  let* g := fld risk "liquidity_score" (PNum 0) ".1f" in
  Ok ["RISK METRICS:"; "Portfolio Beta: " ++ a; "VaR (95%): " ++ b;
      "CVaR (95%): " ++ c; "Tracking Error: " ++ d;
      "Correlation with Benchmark: " ++ e; "Concentration Risk: " ++ f;
      "Liquidity Score: " ++ g; ""]%string.

(** One line of the complete holdings list ([i] counts from 0). *)
Definition raw_holding_line (ih : nat * pyval) : res string :=
  let (i, holding) := ih in
  let* n := py_format (int_val (S i)) "2d" in
  let* a := fld holding "Asset_Name" (PStr "Unknown") "<35" in
  let* t := fld holding "Ticker_Symbol" (PStr "N/A") "<15" in
  let* s := fld holding "Sector" (PStr "Unknown") "<20" in
  let* w := fld holding "Weight_Percent" (PNum 0) ">6.2%" in
  let* m := fld holding "Market_Value" (PNum 0) ">15,.0f" in
  let* p := fld holding "Current_Price" (PNum 0) ">8.2f" in
  let* g := fld holding "ESG_Rating" (PStr "N/A") "<4" in
  let* d := fld holding "Dividend_Yield" (PNum 0) ">5.2%" in
  Ok (n ++ ". " ++ a ++ " " ++ "| Ticker: " ++ t ++ " " ++ "| Sector: " ++ s ++ " "
      ++ "| Weight: " ++ w ++ " " ++ "| Market Value: " ++ rupee ++ m ++ " "
      ++ "| Price: " ++ rupee ++ p ++ " " ++ "| ESG: " ++ g ++ " "
      ++ "| Dividend: " ++ d)%string.

(** One line of the top-holdings fallback list. *)
Definition top_holding_line (ih : nat * pyval) : res string :=
  let (i, holding) := ih in
  let* n := py_format (int_val (S i)) "2d" in
  let* a := fld holding "Asset_Name" (PStr "Unknown") "<30" in
  let* t := fld holding "Ticker_Symbol" (PStr "N/A") "<12" in
  let* s := fld holding "Sector" (PStr "Unknown") "<20" in
  let* w := fld holding "Weight_Percent" (PNum 0) ".2%" in
  let* m := fld holding "Market_Value" (PNum 0) ",.0f" in
  let* g := fld holding "ESG_Rating" (PStr "N/A") "" in
  Ok (n ++ ". " ++ a ++ " " ++ "(" ++ t ++ ") " ++ "Sector: " ++ s ++ " "
      ++ "Weight: " ++ w ++ " " ++ "Value: " ++ rupee ++ m ++ " " ++ "ESG: " ++ g)%string.

(** [enumerate(xs)] *)
Definition enumerate {A} (xs : list A) : list (nat * A) := combine (seq 0 (length xs)) xs.

Definition raw_holdings_lines (holdings_list : pyval) : res (list string) :=
  let* n := py_len holdings_list in
  let* n := py_format (int_val n) "" in
  let* items := py_iter holdings_list in
  let* sorted_holdings := py_sorted_desc (fun x => py_get x "Market_Value" (PNum 0)) items in
  let* lines := res_mapM raw_holding_line (enumerate sorted_holdings) in
  Ok (app ["COMPLETE HOLDINGS DETAILS:"; "Total Holdings: " ++ n;
            "All Holdings with Full Details:"]%string (app lines [""%string])).

Definition top_holdings_lines (top_holdings : pyval) : res (list string) :=
  let* n := py_len top_holdings in
  let* n := py_format (int_val n) "" in
  let* items := py_iter top_holdings in
  let* lines := res_mapM top_holding_line (enumerate items) in
  Ok (app ["TOP HOLDINGS:"; "Showing Top " ++ n ++ " Holdings:"]%string (app lines [""%string])).

Definition holdings_section (data : pydict) : res (list string) :=
  let top := match assoc data "top_holdings" with
             | Some th => if truthy th then top_holdings_lines th else Ok []
             | None => Ok []
             end in
  match assoc data "raw_holdings_df" with
  | Some raw => if truthy raw then raw_holdings_lines raw else top
  | None => top
  end.

Definition sector_line (total_value : Q) (kv : string * pyval) : res string :=
  let (sector, value) := kv in
  let* weight := (if Qlt_bool 0 total_value
                  then Utils.py_truediv value (PNum total_value) else Ok 0) in
  let* s := py_format (PStr sector) "<25" in
  let* w := py_format (PNum weight) ".1%" in
  let* v := py_format value ",.0f" in
  Ok ("- " ++ s ++ ": " ++ w ++ " (" ++ v ++ " INR)")%string.

Definition sector_section (data : pydict) : res (list string) :=
  match assoc data "sector_allocation" with
  | Some sa =>
      if truthy sa then
        let* vals := VectorStore.py_values sa in
        let* total_value := py_sum vals in
        let* items := py_items sa in
        let* sorted_sectors := py_sorted_desc (fun kv => Ok (snd kv)) items in
        let* lines := res_mapM (sector_line total_value) sorted_sectors in
        Ok ("SECTOR ALLOCATION:" :: lines ++ [""])
      else Ok []
  | None => Ok []
  end.

Definition geo_section (data : pydict) : res (list string) :=
  match assoc data "holdings_data" with
  | Some hd =>
      let* has := py_contains "geographic_allocation" hd in
      if has then
        let* geo_data := VectorStore.py_getitem hd "geographic_allocation" in
        let* items := py_items geo_data in
        let* lines := res_mapM (fun kv =>
          let* g := py_format (PStr (fst kv)) "" in
          let* v := py_format (snd kv) "" in
          Ok ("- " ++ g ++ ": " ++ v)%string) items in
        Ok ("GEOGRAPHIC ALLOCATION:" :: lines ++ [""])
      else Ok []
  | None => Ok []
  end.

Definition opt_section (data : pydict) (k : string) (f : pyval -> res (list string))
  : res (list string) :=
  match assoc data k with Some v => f v | None => Ok [] end.

Definition _prepare_portfolio_summary (data : pydict) : res string :=
  let* p1 := opt_section data "portfolio_summary" portfolio_lines in
  let* p2 := opt_section data "performance_summary" performance_lines in
  let* p3 := opt_section data "risk_summary" risk_lines in
  let* p4 := holdings_section data in
  let* p5 := sector_section data in
  let* p6 := geo_section data in
  Ok (VectorStore.join nl (p1 ++ p2 ++ p3 ++ p4 ++ p5 ++ p6)).

Definition analyze_system : string :=
  ("You are a senior portfolio manager and investment advisor specializing in sovereign fund management. " ++ nl
   ++ ind ++ "Analyze the provided portfolio data and provide insights on:" ++ nl
   ++ ind ++ "1. Overall portfolio health and performance" ++ nl
   ++ ind ++ "2. Risk assessment and management" ++ nl
   ++ ind ++ "3. Sector allocation and diversification" ++ nl
   ++ ind ++ "4. Performance vs benchmarks" ++ nl
   ++ ind ++ "5. Key strengths and areas for improvement" ++ nl
   ++ ind ++ nl
   ++ ind ++ "Be precise, data-driven, and provide actionable insights.")%string.

Definition analyze_prompt (portfolio_summary : string) : string :=
  ("Please analyze this sovereign fund portfolio:" ++ nl ++ nl ++ portfolio_summary ++ nl ++ nl
   ++ "Provide a comprehensive analysis covering performance, risk, diversification, and overall portfolio health.")%string.

(** [analyze_portfolio]: the snapshot is added to the vector store
    (with [datetime.now()] = [t_add]) before anything else. *)
Definition analyze_portfolio (e : engine) (processed_data : pydict) (t_add t_result : string)
  : engine * outcome analysis :=
  match VectorStore.add_portfolio_data parse_float py_format t_add (vector_store e)
          processed_data None with
  | Err ex => (e, RuntimeError ex)
  | Ok (vs, _) =>
      let e1 := mk_engine vs (chat_history e) in
      match _prepare_portfolio_summary processed_data with
      | Err ex => (e1, RuntimeError ex)
      | Ok portfolio_summary =>
          match _generate_content (analyze_prompt portfolio_summary) analyze_system with
          | Ok a => (e1, Returned (mk_analysis a t_result portfolio_summary))
          | Err ex => (e1, RuntimeError ex)
          end
      end
  end.

Definition recommendations_system : string :=
  ("You are an expert investment advisor for sovereign wealth funds. " ++ nl
   ++ ind ++ "Generate specific, actionable investment recommendations based on the portfolio analysis." ++ nl
   ++ ind ++ "Focus on: optimization opportunities, risk management, diversification improvements, " ++ nl
   ++ ind ++ "and performance enhancement strategies.")%string.

Definition recommendations_prompt (portfolio_summary context : string) : string :=
  ("Based on this portfolio data and context:" ++ nl ++ nl ++ portfolio_summary ++ nl ++ nl
   ++ "Context from similar periods:" ++ nl ++ context ++ nl ++ nl
   ++ "Generate 5-7 specific investment recommendations with:" ++ nl
   ++ "- Clear rationale for each recommendation" ++ nl
   ++ "- Expected impact on portfolio" ++ nl
   ++ "- Implementation priority (High/Medium/Low)" ++ nl
   ++ "- Risk considerations" ++ nl ++ nl
   ++ "Format as numbered recommendations.")%string.

Definition generate_recommendations (e : engine) (processed_data : pydict)
  : outcome (list AIEngine.recommendation) :=
  match _prepare_portfolio_summary processed_data with
  | Err ex => RuntimeError ex
  | Ok portfolio_summary =>
      let context := VectorStore.get_context_for_query parse_float py_format (vector_store e)
                       "investment recommendations" processed_data in
      match _generate_content (recommendations_prompt portfolio_summary context)
              recommendations_system with
      | Err ex => RuntimeError ex
      | Ok text => Returned (AIEngine._parse_recommendations text)
      end
  end.

Definition chat_system : string :=
  ("You are a knowledgeable portfolio advisor with access to detailed portfolio data. " ++ nl
   ++ ind ++ "Answer questions about the portfolio using the specific data provided. Be detailed, specific, and use actual numbers " ++ nl
   ++ ind ++ "from the data. Do not give generic responses - always reference the actual portfolio holdings, performance metrics, " ++ nl
   ++ ind ++ "and risk data provided in the context.")%string.

Definition chat_prompt (context history_text user_message : string) : string :=
  ("COMPLETE PORTFOLIO CONTEXT:" ++ nl ++ context ++ nl ++ nl
   ++ "RECENT CONVERSATION:" ++ nl ++ history_text ++ nl ++ nl
   ++ "CURRENT USER QUESTION: " ++ user_message ++ nl ++ nl
   ++ "Please provide a detailed, specific answer using the actual portfolio data above. Include specific company names, " ++ nl
   ++ "exact percentages, and real numbers from the data. Do not give generic responses.")%string.

Definition msg_line (m : chat_msg) : string := (role m ++ ": " ++ message m)%string.

(** The part of [chat_with_portfolio] before the Gemini call: the
    history with the user's message appended, and the prompt. *)
Definition chat_request (e : engine) (user_message : string) (processed_data : pydict)
  (t_user : string) : list chat_msg * string :=
  let context := VectorStore.get_context_for_query parse_float py_format (vector_store e)
                   user_message processed_data in
  let history := chat_history e ++ [mk_msg "user" user_message t_user] in
  let recent_history := py_tail 5 history in
  let history_text := VectorStore.join nl (map msg_line (py_tail 4 recent_history)) in
  (history, chat_prompt context history_text user_message).

Definition chat_with_portfolio (e : engine) (user_message : string) (processed_data : pydict)
  (t_user t_reply : string) : engine * outcome string :=
  let (history, prompt) := chat_request e user_message processed_data t_user in
  match _generate_content prompt chat_system with
  | Ok response =>
      (mk_engine (vector_store e) (history ++ [mk_msg "assistant" response t_reply]),
       Returned response)
  | Err ex => (mk_engine (vector_store e) history, RuntimeError ex)
  end.

Definition get_chat_history (e : engine) : list chat_msg := chat_history e.

Definition clear_chat_history (e : engine) : engine := mk_engine (vector_store e) [].

Definition get_vector_stats (e : engine) : VectorStore.stats := VectorStore.get_stats (vector_store e).
End Engine.

End Engine.

(* ------------------------------------------------------------------ *)
(** ** utils.py: session state, formatting, completeness and alerts *)

Module Frontend.
Import PyOps.

(** *** [initialize_session_state]

    [st.session_state] maps names to values; besides the defaults below
    it holds objects of the app ([data_processor], [ai_engine]). *)

Inductive sval :=
| SBool (b : bool)
| SPy (v : pyval)
| SObj (name : string).

Definition session := gmap string sval.

Definition session_defaults : list (string * sval) :=
  [("data_loaded", SBool false);
   ("raw_data", SPy (PDict []));
   ("portfolio_summary", SPy (PDict []));
   ("holdings_data", SPy (PDict []));
   ("performance_data", SPy (PDict []));
   ("risk_data", SPy (PDict []));
   ("ai_analysis", SPy (PDict []));
   ("ai_recommendations", SPy (PList []));
   ("chat_messages", SPy (PList []));
   ("last_processed_file", SPy PNone);
   ("ai_analysis_done", SBool false);
   ("gemini_api_key", SPy (PStr ""))]%string.

(** [if k not in st.session_state: st.session_state.k = v] *)
Definition init_default (ss : session) (kv : string * sval) : session :=
  match ss !! kv.1 with
  | Some _ => ss
  | None => <[kv.1 := kv.2]> ss
  end.

Definition initialize_session_state (ss : session) : session :=
  fold_left init_default session_defaults ss.

(** *** [validate_data_completeness] *)

Definition validate_data_completeness (data : pydict) : res (list (string * bool)) :=
  let portfolio_overview := truthy (dict_get data "portfolio_summary" PNone) in
  let* th := py_get (dict_get data "holdings_data" (PDict [])) "top_holdings" PNone in
  let performance_data := truthy (dict_get data "performance_summary" PNone) in
  let risk_data := truthy (dict_get data "risk_summary" PNone) in
  let* n := py_len (dict_get data "historical_performance" (PList [])) in
  Ok [("portfolio_overview", portfolio_overview);
      ("holdings_data", truthy th);
      ("performance_data", performance_data);
      ("risk_data", risk_data);
      ("historical_data", Nat.ltb 0 n)]%string.

(** *** [format_currency], [format_percentage]

    Both take a [float] (their annotated type; every modelled caller
    passes a number); [pd.isna] of a float is false here, NaN is not
    modelled. *)

Section Format.
Variable py_format : pyval -> string -> res string.

(** The default [currency] argument ["â‚¹"], in UTF-8. *)
Definition default_currency : string := bytes_str [195; 162; 226; 128; 154; 194; 185]%nat.

Definition e3 : Q := inject_Z 1000.
Definition e6 : Q := inject_Z 1000000.
Definition e9 : Q := inject_Z 1000000000.
Definition e12 : Q := inject_Z 1000000000000.

Definition format_currency (amount : Q) (currency : string) : res string :=
  if Qeq_bool amount 0 then Ok (currency ++ "0")%string
  else
    let abs_amount := Qabs amount in
    if Qle_bool e12 abs_amount then
      let* s := py_format (PNum (amount / e12)) ".2f" in Ok (currency ++ s ++ "T")%string
    else if Qle_bool e9 abs_amount then
      let* s := py_format (PNum (amount / e9)) ".2f" in Ok (currency ++ s ++ "B")%string
    else if Qle_bool e6 abs_amount then
      let* s := py_format (PNum (amount / e6)) ".2f" in Ok (currency ++ s ++ "M")%string
    else if Qle_bool e3 abs_amount then
      let* s := py_format (PNum (amount / e3)) ".2f" in Ok (currency ++ s ++ "K")%string
    else
      let* s := py_format (PNum amount) ",.2f" in Ok (currency ++ s)%string.

Definition str_nat (n : nat) : string := NilZero.string_of_uint (Nat.to_uint n).

Definition format_percentage (value : Q) (decimals : nat) : res string :=
  let* s := py_format (PNum (value * 100)) ("." ++ str_nat decimals ++ "f")%string in
  Ok (s ++ "%")%string.

(** *** [generate_alerts] *)

Record alert := mk_alert {
  a_type : string;
  a_title : string;
  a_message : string }.

(** [v < c] / [v > c] against a float: only a number compares. *)
Definition as_num (v : pyval) : res Q :=
  match v with PNum q => Ok q | _ => Err TypeError end.

Definition perf_alerts (perf : pyval) : res (list alert) :=
  let* total_return := py_get perf "total_return" (PNum 0) in
  let* tr := as_num total_return in
  let* a1 := (if Qlt_bool tr (-(5 # 100)) then
                let* p := format_percentage tr 2 in
                Ok [mk_alert "warning" "Poor Performance"
                      ("Portfolio showing negative return of " ++ p)]
              else Ok [])%string in
  let* sharpe_ratio := py_get perf "sharpe_ratio" (PNum 0) in
  let* sr := as_num sharpe_ratio in
  let* a2 := (if Qlt_bool sr (1 # 2) then
                let* s := py_format sharpe_ratio ".2f" in
                Ok [mk_alert "warning" "Low Risk-Adjusted Returns"
                      ("Sharpe ratio of " ++ s ++ " indicates poor risk-adjusted performance")]
              else Ok [])%string in
  Ok (a1 ++ a2).

Definition risk_alerts (risk : pyval) : res (list alert) :=
  let* concentration_risk := py_get risk "concentration_risk" (PNum 0) in
  let* cr := as_num concentration_risk in
  let* a1 := (if Qlt_bool (2 # 5) cr then
                let* s := py_format concentration_risk ".1%" in
                Ok [mk_alert "error" "High Concentration Risk"
                      ("Concentration risk of " ++ s ++ " exceeds recommended levels")]
              else Ok [])%string in
  let* var_95 := py_get risk "var_95" (PNum 0) in
  let* v := as_num var_95 in
  let* a2 := (if Qlt_bool v (- inject_Z 50000000) then
                let* s := format_currency v default_currency in
                Ok [mk_alert "warning" "High Value at Risk"
                      ("VaR (95%) of " ++ s ++ " indicates high potential losses")]
              else Ok [])%string in
  Ok (a1 ++ a2).

Definition holdings_alerts (holdings : pyval) : res (list alert) :=
  let* total_holdings := py_get holdings "total_holdings" (PNum 0) in
  let* n := as_num total_holdings in
  if Qlt_bool n 10 then
    let* s := py_format total_holdings "" in
    Ok [mk_alert "info" "Limited Diversification"
          ("Only " ++ s ++ " holdings may limit diversification benefits")]%string
  else Ok [].

Definition opt_alerts (data : pydict) (k : string) (f : pyval -> res (list alert))
  : res (list alert) :=
  match assoc data k with Some v => f v | None => Ok [] end.

Definition generate_alerts (data : pydict) : res (list alert) :=
  let* a := opt_alerts data "performance_summary" perf_alerts in
  let* b := opt_alerts data "risk_summary" risk_alerts in
  let* c := opt_alerts data "holdings_data" holdings_alerts in
  Ok (a ++ b ++ c).
End Format.

End Frontend.

(* ------------------------------------------------------------------ *)
(** ** data_processor.py: [get_time_series_data]

    A loaded sheet as its columns: names in order with their values
    (column names are taken to be unique). *)

Module TimeSeries.

Definition frame := list (string * list pyval).

Fixpoint lookup_str {A} (l : list (string * A)) (k : string) : option A :=
  match l with
  | [] => None
  | (k', v) :: l' => if String.eqb k k' then Some v else lookup_str l' k
  end.

(** [df.columns] *)
Definition df_columns (df : frame) : list string := map fst df.

(** [df[cols]]: a missing label raises [KeyError]. *)
Definition select (df : frame) (cols : list string) : res frame :=
  res_mapM (fun c => match lookup_str df c with
                     | Some col => Ok (c, col)
                     | None => Err KeyError
                     end) cols.

(** [self.data] holds the sheets by name; [columns] is [None] by
    default, and an empty list is falsy too. *)
Definition get_time_series_data (data : list (string * frame)) (sheet_name : string)
  (columns : option (list string)) : res frame :=
  match lookup_str data sheet_name with
  | None => Err (ValueError ("Sheet " ++ sheet_name ++ " not found"))
  | Some df =>
      match columns with
      | Some ((_ :: _) as cs) =>
          let columns_with_date :=
            "Date" :: List.filter (fun col => existsb (String.eqb col) (df_columns df)) cs in
          select df columns_with_date
      | _ => Ok df
      end
  end%string.

End TimeSeries.

(* ================================================================== *)
(** * Proofs *)

(* ------------------------------------------------------------------ *)
(** ** The descending sort: permutation, order and top-k selection *)

Lemma strongly_sorted_app {A : Type} (R : A -> A -> Prop) a b x y :
  StronglySorted R (a ++ b) -> In x a -> In y b -> R x y.
Proof.
  induction a as [|z a IH]; simpl; [tauto|].
  intros Hs Hx Hy. apply StronglySorted_inv in Hs as [Hs Hz].
  destruct Hx as [<-|Hx]; [|now apply IH].
  rewrite List.Forall_forall in Hz. apply Hz, in_or_app. now right.
Qed.

Section SortDescFacts.
Context {A : Type} (key : A -> Q).

Lemma insert_desc_perm x l : Permutation (insert_desc key x l) (x :: l).
Proof.
  induction l as [|y l IH]; simpl; [reflexivity|].
  destruct (Qle_bool (key y) (key x)); [reflexivity|].
  rewrite IH. apply perm_swap.
Qed.

Lemma sort_desc_perm l : Permutation (sort_desc key l) l.
Proof.
  induction l as [|x l IH]; simpl; [reflexivity|].
  rewrite insert_desc_perm. now apply perm_skip.
Qed.

Lemma insert_desc_sorted x l :
  StronglySorted (desc key) l -> StronglySorted (desc key) (insert_desc key x l).
Proof.
  induction l as [|y l IH]; intros Hs; simpl.
  - repeat constructor.
  - apply StronglySorted_inv in Hs as [Hl Hy].
    destruct (Qle_bool (key y) (key x)) eqn:E.
    + apply Qle_bool_iff in E.
      constructor; [now constructor|].
      constructor; [exact E|].
      rewrite List.Forall_forall in Hy |- *. intros z Hz.
      unfold desc in *. eapply Qle_trans; [apply Hy, Hz | exact E].
    + constructor; [now apply IH|].
      rewrite List.Forall_forall in Hy |- *. intros z Hz.
      apply (Permutation_in _ (insert_desc_perm x l)) in Hz.
      destruct Hz as [<-|Hz]; [|now apply Hy].
      unfold desc. apply Qlt_le_weak, Qnot_le_lt.
      intros C. apply Qle_bool_iff in C. congruence.
Qed.

Lemma sort_desc_sorted l : StronglySorted (desc key) (sort_desc key l).
Proof.
  induction l as [|x l IH]; simpl; [constructor|].
  now apply insert_desc_sorted.
Qed.


(** The first [k] elements of the sorted list are [k] elements of
    largest key, in decreasing order. *)
Lemma top_k_spec (l : list A) (k : nat) :
  let t := firstn k (sort_desc key l) in
  let rest := skipn k (sort_desc key l) in
  length t = Nat.min k (length l) /\
  Permutation l (t ++ rest) /\
  StronglySorted (desc key) t /\
  (forall x y, In x t -> In y rest -> key y <= key x).
Proof.
  cbn zeta.
  pose proof (sort_desc_sorted l) as Hs.
  rewrite <- (firstn_skipn k (sort_desc key l)) in Hs.
  split; [|split; [|split]].
  - rewrite length_firstn. f_equal. apply Permutation_length, sort_desc_perm.
  - rewrite firstn_skipn. symmetry. apply sort_desc_perm.
  - clear -Hs. revert Hs. generalize (firstn k (sort_desc key l)), (skipn k (sort_desc key l)).
    intros a b. induction a as [|z a IH]; simpl; intros H; [constructor|].
    apply StronglySorted_inv in H as [H1 H2]. constructor; [now apply IH|].
    rewrite List.Forall_forall in H2 |- *. intros w Hw. apply H2, in_or_app. now left.
  - intros x y Hx Hy. exact (strongly_sorted_app _ _ _ _ _ Hs Hx Hy).
Qed.
End SortDescFacts.

(* ------------------------------------------------------------------ *)
(** ** [_create_embeddings] *)

Module EmbeddingFacts.
Import VectorStore.

Lemma pad_loop_eq fuel dim f :
  pad_loop fuel dim f = f ++ repeat 0 (Nat.min fuel (dim - length f)).
Proof.
  revert f. induction fuel as [|fuel IH]; intros f; simpl.
  - now rewrite app_nil_r.
  - destruct (Nat.ltb (length f) dim) eqn:E.
    + apply Nat.ltb_lt in E. rewrite IH, <- app_assoc. f_equal.
      rewrite length_app. simpl.
      replace (dim - length f)%nat with (S (dim - (length f + 1)))%nat by lia.
      reflexivity.
    + apply Nat.ltb_ge in E. replace (dim - length f)%nat with 0%nat by lia.
      simpl. now rewrite app_nil_r.
Qed.

Lemma pad_truncate_length dim f : length (pad_truncate dim f) = dim.
Proof.
  unfold pad_truncate. rewrite pad_loop_eq, length_firstn, length_app, List.repeat_length.
  lia.
Qed.

Lemma pad_truncate_nth dim f i :
  (i < dim)%nat -> nth i (pad_truncate dim f) 0 = nth i f 0.
Proof.
  intros Hi. unfold pad_truncate. rewrite pad_loop_eq, nth_firstn.
  destruct (Nat.ltb_spec i dim) as [_|]; [|lia].
  destruct (Nat.lt_ge_cases i (length f)) as [Hl|Hl].
  - now rewrite app_nth1.
  - rewrite app_nth2 by exact Hl. rewrite (nth_overflow f) by exact Hl.
    apply nth_repeat.
Qed.

End EmbeddingFacts.

(** Claim C2.  For every data dict (any of the four summary keys may be
    missing) the embedding has exactly [dimension] entries: entry [i] is
    the [i]-th extracted feature, or 0 past the extracted features
    (zero padding; features beyond [dimension] are cut off); when the
    extraction raises, every entry is 0. *)
Theorem create_embeddings_fixed_length :
  forall (parse_float : string -> option Q) (dimension : nat) (data : pydict),
    length (VectorStore._create_embeddings parse_float dimension data) = dimension /\
    (forall i, (i < dimension)%nat ->
       nth i (VectorStore._create_embeddings parse_float dimension data) 0 =
       match VectorStore.extract_features parse_float data with
       | Ok features => nth i features 0
       | Err _ => 0
       end).
Proof.
  intros pf dim data. unfold VectorStore._create_embeddings.
  destruct (VectorStore.extract_features pf data) as [f|e].
  - split; [apply EmbeddingFacts.pad_truncate_length|].
    intros i Hi. now apply EmbeddingFacts.pad_truncate_nth.
  - split; [apply List.repeat_length|]. intros i Hi. now apply nth_repeat_lt.
Qed.

(* ------------------------------------------------------------------ *)
(** ** The vector store: invariant, FAISS search and [collect] *)

Module StoreFacts.
Import VectorStore.

Lemma init_wf d : wf (init d).
Proof. unfold wf, init; simpl. repeat split; congruence. Qed.

Lemma wf_lockstep s : wf s -> lockstep s.
Proof.
  intros (H1 & _ & H3 & _). unfold lockstep, ntotal. rewrite H1. lia.
Qed.

Lemma add_shape pf fmt now s d ts s' id :
  add_portfolio_data pf fmt now s d ts = Ok (s', id) ->
  id = length (embeddings s) /\
  dimension s' = dimension s /\
  embeddings s' = embeddings s ++ [_create_embeddings pf (dimension s) d] /\
  (exists md, s_metadata s' = s_metadata s ++ [md]) /\
  ix_vecs (s_index s') = ix_vecs (s_index s) ++ [_create_embeddings pf (dimension s) d] /\
  ix_d (s_index s') = ix_d (s_index s) /\
  is_trained s' = true.
Proof.
  unfold add_portfolio_data, res_bind.
  destruct (make_metadata fmt now d ts) as [md|]; [|discriminate].
  unfold index_add.
  destruct (Nat.eqb _ _); [|discriminate].
  intros H. injection H as <- <-. simpl.
  repeat split; eauto.
Qed.

Lemma add_wf pf fmt now s d ts s' id :
  wf s -> add_portfolio_data pf fmt now s d ts = Ok (s', id) -> wf s'.
Proof.
  intros (H1 & H2 & H3 & H4) Hadd.
  destruct (add_shape _ _ _ _ _ _ _ _ Hadd) as (_ & Hd & He & [md Hm] & Hv & Hix & Ht).
  unfold wf. rewrite Hd, He, Hm, Hv, Hix, H1, H2, Ht.
  rewrite !length_app, H3. repeat split; auto.
Qed.











End StoreFacts.


(* ------------------------------------------------------------------ *)
(** ** Growth of the store, lockstep, persistence *)

Module StoreFacts2.
Import VectorStore.

Definition res_opt {A} (r : res A) : option A :=
  match r with Ok a => Some a | Err _ => None end.

Lemma add_metadata pf fmt now s d ts s' id :
  add_portfolio_data pf fmt now s d ts = Ok (s', id) ->
  map Some (s_metadata s') = map Some (s_metadata s) ++ [res_opt (make_metadata fmt now d ts)].
Proof.
  unfold add_portfolio_data, res_bind.
  destruct (make_metadata fmt now d ts) as [md|]; [|discriminate].
  unfold index_add. destruct (Nat.eqb _ _); [|discriminate].
  intros H. injection H as <- <-. simpl. now rewrite map_app.
Qed.

Lemma run_adds_shape pf fmt now s calls s' ids :
  run_adds pf fmt now s calls = Ok (s', ids) ->
  ids = seq (length (embeddings s)) (length calls) /\
  dimension s' = dimension s /\
  embeddings s' = embeddings s ++ map (fun c => _create_embeddings pf (dimension s) (fst c)) calls /\
  map Some (s_metadata s') =
    map Some (s_metadata s) ++ map (fun c => res_opt (make_metadata fmt now (fst c) (snd c))) calls /\
  ix_vecs (s_index s') = ix_vecs (s_index s) ++ map (fun c => _create_embeddings pf (dimension s) (fst c)) calls.
Proof.
  revert s s' ids. induction calls as [|[d ts] calls IH]; intros s s' ids; simpl.
  - intros H. injection H as <- <-. rewrite !app_nil_r. repeat split.
  - destruct (add_portfolio_data pf fmt now s d ts) as [[s1 id]|] eqn:Hadd; simpl; [|discriminate].
    destruct (run_adds pf fmt now s1 calls) as [[s2 ids2]|] eqn:Hrun; simpl; [|discriminate].
    intros H. injection H as <- <-.
    destruct (StoreFacts.add_shape _ _ _ _ _ _ _ _ Hadd) as (Hid & Hd & He & _ & Hv & _ & _).
    pose proof (add_metadata _ _ _ _ _ _ _ _ Hadd) as Hm.
    destruct (IH s1 s2 ids2 Hrun) as (Hids & Hd2 & He2 & Hm2 & Hv2).
    rewrite Hd in Hd2, He2, Hv2.
    split; [|split; [|split; [|split]]].
    + rewrite Hid, Hids, He, length_app. simpl. rewrite Nat.add_1_r. reflexivity.
    + exact Hd2.
    + rewrite He2, He, <- app_assoc. reflexivity.
    + rewrite Hm2, Hm, <- app_assoc. reflexivity.
    + rewrite Hv2, Hv, <- app_assoc. reflexivity.
Qed.

Lemma step_keeps_prefix pf fmt now st o :
  (forall p, o <> OpLoad p) ->
  exists e m, embeddings (fst (step pf fmt now st o)) = embeddings (fst st) ++ e /\
              s_metadata (fst (step pf fmt now st o)) = s_metadata (fst st) ++ m.
Proof.
  intros Hno. destruct st as [s fsys].
  destruct o as [d ts|q k|q d| |p|p]; simpl.
  - destruct (add_portfolio_data pf fmt now s d ts) as [[s' id]|] eqn:Hadd; simpl.
    + destruct (StoreFacts.add_shape _ _ _ _ _ _ _ _ Hadd) as (_ & _ & He & [md Hm] & _).
      eexists _, _. split; eassumption.
    + exists [], []. now rewrite !app_nil_r.
  - exists [], []. now rewrite !app_nil_r.
  - exists [], []. now rewrite !app_nil_r.
  - exists [], []. now rewrite !app_nil_r.
  - exists [], []. now rewrite !app_nil_r.
  - exfalso. exact (Hno p eq_refl).
Qed.

Lemma step_wf pf fmt now st o :
  (forall p, o <> OpLoad p) -> wf (fst st) -> wf (fst (step pf fmt now st o)).
Proof.
  intros Hno Hwf. destruct st as [s fsys].
  destruct o as [d ts|q k|q d| |p|p]; simpl in *; auto.
  - destruct (add_portfolio_data pf fmt now s d ts) as [[s' id]|] eqn:Hadd; simpl; auto.
    exact (StoreFacts.add_wf _ _ _ _ _ _ _ _ Hwf Hadd).
  - exfalso. exact (Hno p eq_refl).
Qed.

Lemma app_cancel_l (p a b : string) : (p ++ a = p ++ b)%string -> a = b.
Proof.
  induction p as [|c p IH]; simpl; auto.
  intros H. injection H as H. now apply IH.
Qed.

Lemma index_metadata_paths_differ p : index_path p <> metadata_path p.
Proof.
  unfold index_path, metadata_path. intros H. apply app_cancel_l in H. discriminate.
Qed.

End StoreFacts2.

(** Claim C7.  Starting from an empty store, [n] successful calls of
    [add_portfolio_data] return the ids 0, ..., n-1 in call order, and
    leave exactly the [n] embeddings (in the index as well) and the [n]
    metadata records built by the calls, in call order.  Every operation
    of the store other than [load_index] (add, search,
    get_context_for_query, get_stats, and save_index) keeps all stored
    embeddings and metadata: the old lists are prefixes of the new. *)
Theorem add_portfolio_data_never_evicts :
  (forall (parse_float : string -> option Q) (py_format : pyval -> string -> res string)
          (now : string) (d : nat) (calls : list (pydict * option string))
          (s : VectorStore.store) (ids : list nat),
     VectorStore.run_adds parse_float py_format now (VectorStore.init d) calls = Ok (s, ids) ->
     ids = seq 0 (length calls) /\
     length (VectorStore.embeddings s) = length calls /\
     VectorStore.embeddings s =
       map (fun c => VectorStore._create_embeddings parse_float d (fst c)) calls /\
     map Some (VectorStore.s_metadata s) =
       map (fun c => StoreFacts2.res_opt (VectorStore.make_metadata py_format now (fst c) (snd c)))
           calls /\
     VectorStore.ntotal (VectorStore.s_index s) = length calls) /\
  (forall (parse_float : string -> option Q) (py_format : pyval -> string -> res string)
          (now : string) (st : VectorStore.store * VectorStore.fs) (o : VectorStore.op),
     (forall p, o <> VectorStore.OpLoad p) ->
     exists e m,
       VectorStore.embeddings (fst (VectorStore.step parse_float py_format now st o)) =
         VectorStore.embeddings (fst st) ++ e /\
       VectorStore.s_metadata (fst (VectorStore.step parse_float py_format now st o)) =
         VectorStore.s_metadata (fst st) ++ m).
Proof.
  split.
  - intros pf fmt now d calls s ids Hrun.
    destruct (StoreFacts2.run_adds_shape _ _ _ _ _ _ _ Hrun) as (Hids & _ & He & Hm & Hv).
    simpl in Hids, He, Hm, Hv.
    split; [exact Hids|]. split; [rewrite He; apply length_map|].
    split; [exact He|]. split; [exact Hm|].
    unfold VectorStore.ntotal. rewrite Hv. apply length_map.
  - intros pf fmt now st o Hno. exact (StoreFacts2.step_keeps_prefix pf fmt now st o Hno).
Qed.

(** Claim C9.  Saving any store and loading the files into a fresh
    store returns [True] and restores the saved store entirely: the
    embeddings, the metadata, the dimension, the [is_trained] flag (and
    the index).  Loading from a path without an index file returns
    [False] and leaves the store as it was. *)
Theorem save_load_roundtrip :
  (forall (s : VectorStore.store) (fsys : VectorStore.fs) (filepath : string) (d : nat),
     let (s', ok) := VectorStore.load_index (VectorStore.init d)
                       (VectorStore.save_index s fsys filepath) filepath in
     ok = true /\
     VectorStore.embeddings s' = VectorStore.embeddings s /\
     VectorStore.s_metadata s' = VectorStore.s_metadata s /\
     VectorStore.dimension s' = VectorStore.dimension s /\
     VectorStore.is_trained s' = VectorStore.is_trained s /\
     VectorStore.s_index s' = VectorStore.s_index s) /\
  (forall (s : VectorStore.store) (fsys : VectorStore.fs) (filepath : string),
     fsys !! VectorStore.index_path filepath = None ->
     VectorStore.load_index s fsys filepath = (s, false)).
Proof.
  split.
  - intros s fsys p d. unfold VectorStore.load_index, VectorStore.save_index.
    unfold VectorStore.fs in *.
    rewrite lookup_insert_ne by (apply not_eq_sym, StoreFacts2.index_metadata_paths_differ).
    rewrite lookup_insert_eq, lookup_insert_eq. simpl. repeat split.
  - intros s fsys p H. unfold VectorStore.load_index. now rewrite H.
Qed.

(** Claim C8 (failing run).  [load_index] assigns [self.index] before
    it opens the metadata file.  With an index file [p.index] but no
    [p.metadata], the call returns [False] yet keeps the loaded index:
    a store whose embeddings, metadata and index agreed now has 2
    embeddings and metadata records but 1 indexed vector.  A search
    with [k = 2] then asks FAISS for 2 hits, receives the padding label
    [-1], passes the [idx < len(self.metadata)] guard and pairs the
    last metadata record with the padding score [-FLT_MAX]. *)
Theorem load_index_breaks_lockstep :
  let md1 := VectorStore.mk_metadata "t1" "" PNone PNone PNone PNone in
  let md2 := VectorStore.mk_metadata "t2" "" PNone PNone PNone PNone in
  let s := VectorStore.mk_store 1 (VectorStore.mk_index 1 [[1]; [2]]) [[1]; [2]] [md1; md2] true in
  let fsys : VectorStore.fs := <["p.index" := VectorStore.FIndex (VectorStore.mk_index 1 [[3]])]> ∅ in
  let (s', ok) := VectorStore.load_index s fsys "p" in
  VectorStore.lockstep s /\
  ok = false /\
  length (VectorStore.embeddings s') = 2%nat /\
  length (VectorStore.s_metadata s') = 2%nat /\
  VectorStore.ntotal (VectorStore.s_index s') = 1%nat /\
  ~ VectorStore.lockstep s' /\
  map (fun r => (VectorStore.similarity_score r, VectorStore.md_timestamp (VectorStore.r_metadata r),
                 VectorStore.rank r))
      (VectorStore.search_similar_portfolios (fun _ => None) s' [] 2) =
    [(0, "t1"%string, 1%nat); (VectorStore.neg_flt_max, "t2"%string, 2%nat)].
Proof.
  vm_compute. split; [split; reflexivity|].
  repeat split; try reflexivity.
  intros [_ H]. discriminate H.
Qed.

(* ------------------------------------------------------------------ *)
(** ** [load_excel_file]: sheet validation *)

Module LoadFacts.
Import DataProcessor.

Lemma validate_err {A} sheets (ed : list (string * A)) e :
  validate sheets ed = Err e ->
  exists missing, In missing sheets /\ sheet_in missing ed = false /\
                  e = ValueError ("Missing required sheet: " ++ missing).
Proof.
  induction sheets as [|sh sheets IH]; simpl; [discriminate|].
  destruct (sheet_in sh ed) eqn:E.
  - intros H. destruct (IH H) as (m & Hm & Hin & ->). eauto.
  - intros H. injection H as <-. eauto.
Qed.

Lemma validate_missing {A} sheets (ed : list (string * A)) sheet :
  In sheet sheets -> sheet_in sheet ed = false -> exists e, validate sheets ed = Err e.
Proof.
  induction sheets as [|sh sheets IH]; simpl; [tauto|].
  intros [<-|Hin] Hmiss.
  - rewrite Hmiss. eauto.
  - destruct (sheet_in sh ed); eauto.
Qed.

Lemma validate_all {A} sheets (ed : list (string * A)) :
  (forall sheet, In sheet sheets -> sheet_in sheet ed = true) -> validate sheets ed = Ok tt.
Proof.
  induction sheets as [|sh sheets IH]; simpl; intros H; [reflexivity|].
  rewrite H by auto. apply IH. auto.
Qed.

End LoadFacts.

(** Claim C3.  If any of the seven required sheets is absent,
    [load_excel_file] raises [ValueError("Missing required sheet: ...")]
    naming a required sheet that is absent (the first absent one in the
    listed order); when all seven are present the validation passes and
    the result is exactly that of the cleaning and aggregation that
    follow it. *)
Theorem load_excel_file_sheet_validation :
  (forall (DataFrame R : Type) (clean_and_calculate : list (string * DataFrame) -> res R)
          (excel_data : list (string * DataFrame)) (sheet : string),
     In sheet DataProcessor.expected_sheets ->
     DataProcessor.sheet_in sheet excel_data = false ->
     exists missing,
       DataProcessor.load_excel_file clean_and_calculate excel_data =
         Err (ValueError ("Missing required sheet: " ++ missing)) /\
       In missing DataProcessor.expected_sheets /\
       DataProcessor.sheet_in missing excel_data = false) /\
  (forall (DataFrame R : Type) (clean_and_calculate : list (string * DataFrame) -> res R)
          (excel_data : list (string * DataFrame)),
     (forall sheet, In sheet DataProcessor.expected_sheets ->
                    DataProcessor.sheet_in sheet excel_data = true) ->
     DataProcessor.load_excel_file clean_and_calculate excel_data =
       clean_and_calculate excel_data).
Proof.
  split.
  - intros DF R cc ed sheet Hin Hmiss.
    destruct (LoadFacts.validate_missing _ ed sheet Hin Hmiss) as [e He].
    destruct (LoadFacts.validate_err _ _ _ He) as (m & Hm & Hmm & ->).
    exists m. unfold DataProcessor.load_excel_file. rewrite He. auto.
  - intros DF R cc ed Hall. unfold DataProcessor.load_excel_file.
    now rewrite (LoadFacts.validate_all _ _ Hall).
Qed.

(* ------------------------------------------------------------------ *)
(** ** Holdings aggregates *)

Module HoldingsFacts.
Import DataProcessor.

Definition sector_is (sec : string) (h : holding) : bool := String.eqb (Sector h) sec.

Lemma existsb_false_filter {A} (f : A -> bool) l :
  existsb f l = false -> List.filter f l = [].
Proof.
  induction l as [|x l IH]; simpl; [reflexivity|].
  destruct (f x); simpl; [discriminate|]. exact IH.
Qed.

Lemma group_sum_lookup hs (m : gmap string Q) sec :
  fold_left group_sum hs m !! sec =
  if existsb (sector_is sec) hs
  then Some (fold_left Qplus (map Market_Value (List.filter (sector_is sec) hs)) (default 0 (m !! sec)))
  else m !! sec.
Proof.
  revert m. induction hs as [|h hs IH]; intros m; simpl; [reflexivity|].
  rewrite IH. unfold group_sum.
  destruct (String.eqb_spec (Sector h) sec) as [<-|Hne].
  - assert (Hh : sector_is (Sector h) h = true) by apply String.eqb_refl.
    rewrite lookup_insert_eq. cbn [existsb List.filter]. rewrite Hh. simpl.
    destruct (existsb (sector_is (Sector h)) hs) eqn:E; [reflexivity|].
    rewrite (existsb_false_filter _ _ E). reflexivity.
  - assert (Hh : sector_is sec h = false) by now apply String.eqb_neq.
    rewrite lookup_insert_ne by congruence. cbn [existsb List.filter]. rewrite Hh.
    reflexivity.
Qed.

End HoldingsFacts.

(** Claim C4.  After a successful load, [top_holdings] holds
    [min(10, n)] records of the five columns Asset_Name, Ticker_Symbol,
    Market_Value, Weight_Percent and Sector, taken from distinct rows of
    Holdings_Detail in decreasing Market_Value, and no row left out has
    a larger Market_Value than a selected one; [sector_allocation] maps
    exactly the sectors that occur to the sum of the Market_Value of
    their rows. *)
Theorem top_holdings_and_sector_allocation :
  forall (t : DataProcessor.tables) (p : DataProcessor.processed),
    DataProcessor.process t = Ok p ->
    let hs := DataProcessor.Holdings_Detail t in
    length (DataProcessor.p_top_holdings p) = Nat.min 10 (length hs) /\
    (exists sel rest,
        DataProcessor.p_top_holdings p = map DataProcessor.project sel /\
        Permutation hs (sel ++ rest) /\
        StronglySorted (desc DataProcessor.Market_Value) sel /\
        (forall x y, In x sel -> In y rest ->
           DataProcessor.Market_Value y <= DataProcessor.Market_Value x)) /\
    (forall sec,
        DataProcessor.p_sector_allocation p !! sec =
        if existsb (HoldingsFacts.sector_is sec) hs
        then Some (fold_left Qplus
                     (map DataProcessor.Market_Value (List.filter (HoldingsFacts.sector_is sec) hs)) 0)
        else None).
Proof.
  intros t p Hp hs.
  unfold DataProcessor.process, DataProcessor.calculate_metrics, res_bind in Hp.
  destruct (DataProcessor.performance_summary _); [|discriminate].
  destruct (DataProcessor.risk_summary _); [|discriminate].
  injection Hp as <-. simpl. fold hs.
  pose proof (top_k_spec DataProcessor.Market_Value hs 10) as (Hlen & Hperm & Hsort & Hbest).
  split; [|split].
  - unfold DataProcessor.top_holdings, DataProcessor.nlargest. now rewrite length_map.
  - eexists _, _. split; [reflexivity|]. eauto.
  - intros sec. unfold DataProcessor.sector_allocation.
    rewrite HoldingsFacts.group_sum_lookup, lookup_empty. reflexivity.
Qed.

(* ------------------------------------------------------------------ *)
(** ** Time-series sheets: sort by Date, read the last row *)

Module DateFacts.
Import DataProcessor.

Definition date_order (a b : ts_row) : Prop := date_le (Date a) (Date b) = true.

Lemma date_le_refl d : date_le d d = true.
Proof. destruct d; simpl; [apply Z.leb_refl|reflexivity]. Qed.

Lemma date_le_trans a b c : date_le a b = true -> date_le b c = true -> date_le a c = true.
Proof.
  destruct a as [x|], b as [y|], c as [z|]; simpl; try discriminate; auto.
  rewrite !Z.leb_le. lia.
Qed.

Lemma date_le_total a b : date_le a b = false -> date_le b a = true.
Proof.
  destruct a as [x|], b as [y|]; simpl; try discriminate; auto.
  rewrite Z.leb_gt, Z.leb_le. lia.
Qed.

Lemma insert_by_date_perm r rows : Permutation (insert_by_date r rows) (r :: rows).
Proof.
  induction rows as [|r' rows IH]; simpl; [reflexivity|].
  destruct (date_le (Date r) (Date r')); [reflexivity|].
  rewrite IH. apply perm_swap.
Qed.

Lemma sort_values_Date_perm rows : Permutation (sort_values_Date rows) rows.
Proof.
  induction rows as [|r rows IH]; simpl; [reflexivity|].
  rewrite insert_by_date_perm. now apply perm_skip.
Qed.

Lemma insert_by_date_sorted r rows :
  StronglySorted date_order rows -> StronglySorted date_order (insert_by_date r rows).
Proof.
  induction rows as [|r' rows IH]; intros Hs; simpl; [repeat constructor|].
  apply StronglySorted_inv in Hs as [Hl Hr'].
  destruct (date_le (Date r) (Date r')) eqn:E.
  - constructor; [now constructor|]. constructor; [exact E|].
    rewrite List.Forall_forall in Hr' |- *. intros z Hz.
    exact (date_le_trans _ _ _ E (Hr' z Hz)).
  - constructor; [now apply IH|].
    rewrite List.Forall_forall in Hr' |- *. intros z Hz.
    apply (Permutation_in _ (insert_by_date_perm r rows)) in Hz.
    destruct Hz as [<-|Hz]; [now apply date_le_total|now apply Hr'].
Qed.

Lemma sort_values_Date_sorted rows : StronglySorted date_order (sort_values_Date rows).
Proof.
  induction rows as [|r rows IH]; simpl; [constructor|].
  now apply insert_by_date_sorted.
Qed.

(** The last row of the sorted sheet is a row of the sheet and comes
    after every row in the Date order. *)
Lemma last_of_sorted rows r :
  iloc_last (sort_values_Date rows) = Ok r ->
  In r rows /\ forall r', In r' rows -> date_le (Date r') (Date r) = true.
Proof.
  unfold iloc_last. destruct (rev (sort_values_Date rows)) as [|r0 tl] eqn:E; [discriminate|].
  intros H. injection H as <-.
  assert (Hsplit : sort_values_Date rows = rev tl ++ [r0]).
  { rewrite <- (rev_involutive (sort_values_Date rows)), E. reflexivity. }
  pose proof (sort_values_Date_sorted rows) as Hs. rewrite Hsplit in Hs.
  pose proof (sort_values_Date_perm rows) as Hp. rewrite Hsplit in Hp.
  split.
  - apply (Permutation_in _ Hp), in_or_app. right. now left.
  - intros r' Hr'. apply (Permutation_in _ (Permutation_sym Hp)) in Hr'.
    apply in_app_or in Hr' as [Hr'|[<-|[]]].
    + exact (strongly_sorted_app date_order _ _ _ _ Hs Hr' (or_introl eq_refl)).
    + apply date_le_refl.
Qed.

End DateFacts.

(** After a successful load, performance_summary and risk_summary are
    built from the last row of their sheet after [_clean_data] sorted it
    ascending by Date, rows without a Date (NaT) placed last: that row
    comes after every row in this order, and when every row has a Date
    it is a row with the latest Date. *)
Theorem summaries_read_last_row_after_date_sort :
  forall (t : DataProcessor.tables) (p : DataProcessor.processed),
    DataProcessor.process t = Ok p ->
    (exists r,
       DataProcessor.iloc_last (DataProcessor.sort_values_Date (DataProcessor.Historical_Performance t)) = Ok r /\
       In r (DataProcessor.Historical_Performance t) /\
       DataProcessor.perf_fields r = Ok (DataProcessor.p_performance_summary p) /\
       (forall r', In r' (DataProcessor.Historical_Performance t) ->
          DataProcessor.date_le (DataProcessor.Date r') (DataProcessor.Date r) = true) /\
       (List.Forall (fun x => DataProcessor.Date x <> None) (DataProcessor.Historical_Performance t) ->
        exists d, DataProcessor.Date r = Some d /\
          forall r', In r' (DataProcessor.Historical_Performance t) ->
            exists d', DataProcessor.Date r' = Some d' /\ (d' <= d)%Z)) /\
    (exists r,
       DataProcessor.iloc_last (DataProcessor.sort_values_Date (DataProcessor.Risk_Metrics t)) = Ok r /\
       In r (DataProcessor.Risk_Metrics t) /\
       DataProcessor.risk_fields r = Ok (DataProcessor.p_risk_summary p) /\
       (forall r', In r' (DataProcessor.Risk_Metrics t) ->
          DataProcessor.date_le (DataProcessor.Date r') (DataProcessor.Date r) = true) /\
       (List.Forall (fun x => DataProcessor.Date x <> None) (DataProcessor.Risk_Metrics t) ->
        exists d, DataProcessor.Date r = Some d /\
          forall r', In r' (DataProcessor.Risk_Metrics t) ->
            exists d', DataProcessor.Date r' = Some d' /\ (d' <= d)%Z)).
Proof.
  intros t p Hp.
  assert (Hall : forall rows r,
            DataProcessor.iloc_last (DataProcessor.sort_values_Date rows) = Ok r ->
            In r rows /\
            (forall r', In r' rows -> DataProcessor.date_le (DataProcessor.Date r') (DataProcessor.Date r) = true) /\
            (List.Forall (fun x => DataProcessor.Date x <> None) rows ->
             exists d, DataProcessor.Date r = Some d /\
               forall r', In r' rows -> exists d', DataProcessor.Date r' = Some d' /\ (d' <= d)%Z)).
  { intros rows r Hr. destruct (DateFacts.last_of_sorted rows r Hr) as [Hin Hle].
    split; [exact Hin|]. split; [exact Hle|].
    intros Hdated. rewrite List.Forall_forall in Hdated.
    destruct (DataProcessor.Date r) as [d|] eqn:Er; [|exfalso; exact (Hdated r Hin Er)].
    exists d. split; [reflexivity|]. intros r' Hr'.
    specialize (Hle r' Hr').
    destruct (DataProcessor.Date r') as [d'|] eqn:Er'; [|exfalso; exact (Hdated r' Hr' Er')].
    exists d'. split; [reflexivity|]. simpl in Hle. now apply Z.leb_le. }
  unfold DataProcessor.process, DataProcessor.calculate_metrics, res_bind in Hp.
  unfold DataProcessor.performance_summary, DataProcessor.risk_summary, res_bind in Hp.
  unfold DataProcessor.clean_data in Hp. simpl in Hp.
  destruct (DataProcessor.iloc_last (DataProcessor.sort_values_Date (DataProcessor.Historical_Performance t)))
    as [rp|] eqn:Ep; [|discriminate].
  destruct (DataProcessor.perf_fields rp) as [ps|] eqn:Eps; [|discriminate].
  destruct (DataProcessor.iloc_last (DataProcessor.sort_values_Date (DataProcessor.Risk_Metrics t)))
    as [rr|] eqn:Er; [|discriminate].
  destruct (DataProcessor.risk_fields rr) as [rsum|] eqn:Ers; [|discriminate].
  injection Hp as <-. simpl.
  split.
  - exists rp. destruct (Hall _ _ Ep) as (H1 & H2 & H3). auto.
  - exists rr. destruct (Hall _ _ Er) as (H1 & H2 & H3). auto.
Qed.

(** Claim C5 (code bug).  The performance sheet has rows dated day 2
    and day 1, out of order, and between them a row whose Date cell is
    empty (NaT).  The row with the latest Date has Cumulative_Return 5.
    The Date sort puts the NaT row last, so performance_summary reports
    its Cumulative_Return 7 as the total return; without the NaT row the
    same sheet reports 5. *)
Theorem performance_summary_reports_undated_row :
  let perf_row (d : option Z) (v : Q) :=
    DataProcessor.mk_ts_row d
      [("Portfolio_Value", PNum 100); ("Cumulative_Return", PNum v);
       ("Daily_Return", PNum 0); ("Volatility", PNum 0); ("Sharpe_Ratio", PNum 0);
       ("Max_Drawdown", PNum 0); ("Active_Return", PNum 0)]%string in
  let risk_row :=
    DataProcessor.mk_ts_row (Some 1%Z)
      [("Portfolio_Beta", PNum 1); ("VaR_95", PNum 0); ("CVaR_95", PNum 0);
       ("Tracking_Error", PNum 0); ("Correlation_Benchmark", PNum 0);
       ("Concentration_Risk", PNum 0); ("Liquidity_Score", PNum 0)]%string in
  let latest := perf_row (Some 2%Z) 5 in
  let rows := [latest; perf_row None 7; perf_row (Some 1%Z) 3] in
  (forall r d, In r rows -> DataProcessor.Date r = Some d -> (d <= 2)%Z) /\
  DataProcessor.row_get latest "Cumulative_Return" = Ok (PNum 5) /\
  match DataProcessor.process (DataProcessor.mk_tables [] rows [risk_row]),
        DataProcessor.process (DataProcessor.mk_tables [] [latest; perf_row (Some 1%Z) 3] [risk_row])
  with
  | Ok p, Ok p' =>
      assoc (DataProcessor.p_performance_summary p) "total_return" = Some (PNum 7) /\
      assoc (DataProcessor.p_performance_summary p') "total_return" = Some (PNum 5)
  | _, _ => False
  end.
Proof.
  cbv beta zeta. split.
  - intros r d Hr Hd. simpl in Hr.
    destruct Hr as [<-|[<-|[<-|[]]]]; simpl in Hd; try discriminate Hd; injection Hd as <-; lia.
  - split; [reflexivity|]. vm_compute. split; reflexivity.
Qed.

(* ------------------------------------------------------------------ *)
(** ** [_parse_recommendations] *)

Module ParseFacts.
Import AIEngine.


















End ParseFacts.



(* ------------------------------------------------------------------ *)
(** ** [calculate_portfolio_metrics] *)

Module MetricsFacts.
Import Utils.

(** The computation does not raise [ZeroDivisionError]. *)
Definition no_zdiv {A} (r : res A) : Prop :=
  match r with Err ZeroDivisionError => False | _ => True end.

Lemma bind_no_zdiv {A B} (c : res A) (k : A -> res B) :
  no_zdiv c -> (forall a, c = Ok a -> no_zdiv (k a)) -> no_zdiv (res_bind c k).
Proof. destruct c as [a|e]; simpl; auto. Qed.

Lemma mapM_no_zdiv {A B} (f : A -> res B) l :
  (forall x, In x l -> no_zdiv (f x)) -> no_zdiv (res_mapM f l).
Proof.
  induction l as [|x l IH]; simpl; intros H; [exact I|].
  apply bind_no_zdiv; [apply H; auto|]. intros b _.
  apply bind_no_zdiv; [apply IH; auto|]. intros bs _. exact I.
Qed.

Lemma py_sum_no_zdiv xs : no_zdiv (py_sum xs).
Proof.
  unfold py_sum. generalize 0.
  induction xs as [|[q| | | |] xs IH]; intros acc; simpl; trivial.
Qed.

Ltac no_zdiv_by_cases v := destruct v; simpl; trivial.

Lemma py_get_no_zdiv v k d : no_zdiv (py_get v k d).
Proof. no_zdiv_by_cases v. Qed.

Lemma py_gt0_no_zdiv v : no_zdiv (py_gt0 v).
Proof. no_zdiv_by_cases v. Qed.

Lemma py_lt0_no_zdiv v : no_zdiv (py_lt0 v).
Proof. no_zdiv_by_cases v. Qed.

Lemma py_abs_no_zdiv v : no_zdiv (py_abs v).
Proof. no_zdiv_by_cases v. Qed.

Lemma py_values_no_zdiv v : no_zdiv (VectorStore.py_values v).
Proof. no_zdiv_by_cases v. Qed.

Lemma truediv_no_zdiv a b : (forall y, b = PNum y -> ~ y == 0) -> no_zdiv (py_truediv a b).
Proof.
  intros H. unfold py_truediv, py_div.
  destruct a, b; simpl; trivial.
  destruct (Qeq_bool q0 0) eqn:E; simpl; trivial.
  apply (H q0 eq_refl). now apply Qeq_bool_eq.
Qed.

Lemma weights_no_zdiv n v : no_zdiv (weights n v).
Proof.
  destruct v; simpl; trivial. apply mapM_no_zdiv. intros; apply py_get_no_zdiv.
Qed.

Lemma Qlt_bool_true a b : Qlt_bool a b = true -> a < b.
Proof.
  unfold Qlt_bool. destruct (Qle_bool b a) eqn:E; [discriminate|].
  intros _. apply Qnot_le_lt. intros C. apply Qle_bool_iff in C. congruence.
Qed.

Lemma Qlt_bool_false a b : Qlt_bool a b = false -> b <= a.
Proof.
  unfold Qlt_bool. destruct (Qle_bool b a) eqn:E; [|discriminate].
  intros _. now apply Qle_bool_iff.
Qed.

Lemma perf_metrics_no_zdiv perf : no_zdiv (perf_metrics perf).
Proof.
  unfold perf_metrics.
  apply bind_no_zdiv; [apply py_get_no_zdiv|]. intros tr _.
  apply bind_no_zdiv; [apply py_get_no_zdiv|]. intros vol _.
  apply bind_no_zdiv; [apply py_gt0_no_zdiv|]. intros pos Hpos.
  apply bind_no_zdiv.
  { destruct pos; [|exact I]. apply truediv_no_zdiv. intros y -> Hy.
    simpl in Hpos. injection Hpos as Hpos. apply Qlt_bool_true in Hpos. lra. }
  intros rvr _.
  apply bind_no_zdiv; [apply py_get_no_zdiv|]. intros mdd _.
  apply bind_no_zdiv; [apply py_lt0_no_zdiv|]. intros neg Hneg.
  apply bind_no_zdiv; [|intros; exact I].
  destruct neg; [|exact I].
  apply bind_no_zdiv; [apply py_abs_no_zdiv|]. intros a Ha.
  apply bind_no_zdiv; [|intros; exact I].
  apply truediv_no_zdiv. intros y -> Hy.
  destruct mdd as [m| | | |]; try discriminate.
  simpl in Ha. injection Ha as Ha. simpl in Hneg. injection Hneg as Hneg.
  apply Qlt_bool_true in Hneg.
  rewrite <- Ha, Qabs_neg in Hy by lra. lra.
Qed.

Lemma holdings_metrics_no_zdiv h : no_zdiv (holdings_metrics h).
Proof.
  unfold holdings_metrics.
  apply bind_no_zdiv; [apply py_get_no_zdiv|]. intros th _.
  destruct (truthy th); [|exact I].
  apply bind_no_zdiv; [apply weights_no_zdiv|]. intros w5 _.
  apply bind_no_zdiv; [apply py_sum_no_zdiv|]. intros t5 _.
  apply bind_no_zdiv; [apply weights_no_zdiv|]. intros w10 _.
  apply bind_no_zdiv; [apply py_sum_no_zdiv|]. intros t10 _.
  apply bind_no_zdiv; [apply py_get_no_zdiv|]. intros sa _.
  apply bind_no_zdiv; [|intros; exact I].
  destruct (truthy sa); [|exact I].
  apply bind_no_zdiv; [apply py_values_no_zdiv|]. intros vals _.
  apply bind_no_zdiv; [apply py_sum_no_zdiv|]. intros total _.
  destruct (Qlt_bool 0 total) eqn:Et; [|exact I].
  apply Qlt_bool_true in Et.
  apply bind_no_zdiv; [|intros; apply bind_no_zdiv; [apply py_sum_no_zdiv|intros; exact I]].
  apply mapM_no_zdiv. intros v _.
  apply bind_no_zdiv; [|intros; exact I].
  apply truediv_no_zdiv. intros y Hy. injection Hy as <-. lra.
Qed.

Ltac split_binds H :=
  repeat match type of H with
  | context [res_bind ?c _] =>
      let E := fresh "E" in
      destruct c eqn:E; simpl in H; [|discriminate H]
  end.

Lemma perf_metrics_keys perf m1 x :
  perf_metrics perf = Ok m1 -> ~ In ("sector_herfindahl"%string, x) m1.
Proof.
  unfold perf_metrics. intros H. split_binds H.
  injection H as <-. simpl. intros [C|[C|[]]]; discriminate C.
Qed.

Lemma perf_metrics_values perf tr vol mdd m1 :
  py_get perf "total_return" (PNum 0) = Ok (PNum tr) ->
  py_get perf "volatility" (PNum 0) = Ok (PNum vol) ->
  py_get perf "max_drawdown" (PNum 0) = Ok (PNum mdd) ->
  perf_metrics perf = Ok m1 ->
  m1 = [("return_volatility_ratio"%string, MNum (if Qlt_bool 0 vol then tr / vol else 0));
        ("recovery_factor"%string, if Qlt_bool mdd 0 then MNum (tr / Qabs mdd) else MInf)].
Proof.
  intros Htr Hvol Hmdd. unfold perf_metrics. rewrite Htr, Hvol, Hmdd. simpl.
  destruct (Qlt_bool 0 vol) eqn:Ev; destruct (Qlt_bool mdd 0) eqn:Em; simpl;
  unfold py_div.
  - apply Qlt_bool_true in Ev, Em.
    destruct (Qeq_bool vol 0) eqn:Z1; [apply Qeq_bool_eq in Z1; lra|].
    destruct (Qeq_bool (Qabs mdd) 0) eqn:Z2.
    { apply Qeq_bool_eq in Z2. rewrite Qabs_neg in Z2 by lra. lra. }
    simpl. intros H. now injection H as <-.
  - apply Qlt_bool_true in Ev.
    destruct (Qeq_bool vol 0) eqn:Z1; [apply Qeq_bool_eq in Z1; lra|].
    simpl. intros H. now injection H as <-.
  - apply Qlt_bool_true in Em.
    destruct (Qeq_bool (Qabs mdd) 0) eqn:Z2.
    { apply Qeq_bool_eq in Z2. rewrite Qabs_neg in Z2 by lra. lra. }
    simpl. intros H. now injection H as <-.
  - intros H. now injection H as <-.
Qed.

Lemma holdings_metrics_herfindahl h m2 x :
  holdings_metrics h = Ok m2 -> In ("sector_herfindahl"%string, x) m2 ->
  exists sa vals total,
    py_get h "sector_allocation" (PDict []) = Ok sa /\
    VectorStore.py_values sa = Ok vals /\ py_sum vals = Ok total /\ 0 < total.
Proof.
  unfold holdings_metrics. intros H Hin.
  destruct (py_get h "top_holdings" (PList [])) as [th|] eqn:Eth; simpl in H; [|discriminate].
  destruct (truthy th); simpl in H.
  2:{ injection H as <-. destruct Hin. }
  split_binds H.
  injection H as <-. simpl in Hin.
  destruct Hin as [C|[C|Hin]]; [discriminate C|discriminate C|].
  match goal with
  | E : (if truthy ?sa then _ else _) = Ok ?m |- _ =>
      destruct (truthy sa); simpl in E; [|injection E as <-; destruct Hin];
      split_binds E;
      match type of E with
      | (if Qlt_bool 0 ?total then _ else _) = Ok _ =>
          destruct (Qlt_bool 0 total) eqn:Et; simpl in E; [|injection E as <-; destruct Hin];
          apply Qlt_bool_true in Et
      end
  end.
  do 3 eexists. repeat split; eassumption.
Qed.

End MetricsFacts.

(** Claim C10.  [calculate_portfolio_metrics] never raises
    [ZeroDivisionError], whatever the input dict.  With numeric
    total_return, volatility and max_drawdown, return_volatility_ratio
    is [total_return / volatility] when [volatility > 0] and 0
    otherwise, and recovery_factor is [total_return / |max_drawdown|]
    when [max_drawdown < 0] and [float('inf')] otherwise.
    sector_herfindahl is only produced when the sum of the sector
    values is positive. *)
Theorem calculate_portfolio_metrics_guarded_divisions :
  forall data : pydict,
    Utils.calculate_portfolio_metrics data <> Err ZeroDivisionError /\
    (forall perf tr vol mdd ms,
       assoc data "performance_summary" = Some perf ->
       py_get perf "total_return" (PNum 0) = Ok (PNum tr) ->
       py_get perf "volatility" (PNum 0) = Ok (PNum vol) ->
       py_get perf "max_drawdown" (PNum 0) = Ok (PNum mdd) ->
       Utils.calculate_portfolio_metrics data = Ok ms ->
       In ("return_volatility_ratio"%string,
           Utils.MNum (if Qlt_bool 0 vol then tr / vol else 0)) ms /\
       In ("recovery_factor"%string,
           if Qlt_bool mdd 0 then Utils.MNum (tr / Qabs mdd) else Utils.MInf) ms) /\
    (forall ms x,
       Utils.calculate_portfolio_metrics data = Ok ms ->
       In ("sector_herfindahl"%string, x) ms ->
       exists holdings sa vals total,
         assoc data "holdings_data" = Some holdings /\
         py_get holdings "sector_allocation" (PDict []) = Ok sa /\
         VectorStore.py_values sa = Ok vals /\ py_sum vals = Ok total /\ 0 < total).
Proof.
  intros data. split; [|split].
  - intros H.
    assert (Hn : MetricsFacts.no_zdiv (Utils.calculate_portfolio_metrics data)).
    { unfold Utils.calculate_portfolio_metrics.
      apply MetricsFacts.bind_no_zdiv.
      { destruct (assoc data "performance_summary"); [apply MetricsFacts.perf_metrics_no_zdiv|exact I]. }
      intros m1 _. apply MetricsFacts.bind_no_zdiv; [|intros; exact I].
      destruct (assoc data "holdings_data"); [apply MetricsFacts.holdings_metrics_no_zdiv|exact I]. }
    rewrite H in Hn. exact Hn.
  - intros perf tr vol mdd ms Hp Htr Hvol Hmdd H.
    unfold Utils.calculate_portfolio_metrics in H. rewrite Hp in H.
    destruct (Utils.perf_metrics perf) as [m1|] eqn:E1; simpl in H; [|discriminate].
    destruct (match assoc data "holdings_data" with
              | Some holdings => Utils.holdings_metrics holdings | None => Ok [] end)
      as [m2|]; simpl in H; [|discriminate].
    injection H as <-.
    rewrite (MetricsFacts.perf_metrics_values _ _ _ _ _ Htr Hvol Hmdd E1). simpl. auto.
  - intros ms x H Hin. unfold Utils.calculate_portfolio_metrics in H.
    destruct (match assoc data "performance_summary" with
              | Some perf => Utils.perf_metrics perf | None => Ok [] end)
      as [m1|] eqn:E1; simpl in H; [|discriminate].
    destruct (assoc data "holdings_data") as [h|] eqn:Eh; simpl in H.
    + destruct (Utils.holdings_metrics h) as [m2|] eqn:E2; simpl in H; [|discriminate].
      injection H as <-. apply in_app_or in Hin as [Hin|Hin].
      * exfalso. destruct (assoc data "performance_summary"); [|injection E1 as <-; exact Hin].
        exact (MetricsFacts.perf_metrics_keys _ _ _ E1 Hin).
      * destruct (MetricsFacts.holdings_metrics_herfindahl _ _ _ E2 Hin) as (sa & vals & t & ?).
        exists h, sa, vals, t. auto.
    + injection H as <-. rewrite app_nil_r in Hin. exfalso.
      destruct (assoc data "performance_summary"); [|injection E1 as <-; exact Hin].
      exact (MetricsFacts.perf_metrics_keys _ _ _ E1 Hin).
Qed.

(* ------------------------------------------------------------------ *)
(** * Further properties of the code *)

Module ContextFacts.
Import VectorStore.

Definition query_class (query : string) : string :=
  let query_lower := PyStr.lower query in
  if PyStr.contains "risk" query_lower then "risk"
  else if PyStr.contains "performance" query_lower || PyStr.contains "return" query_lower
  then "return"
  else if PyStr.contains "holding" query_lower || PyStr.contains "sector" query_lower
  then "sector"
  else "".

Lemma context_by_class pf fmt s q1 q2 d :
  query_class q1 = query_class q2 ->
  get_context_for_query pf fmt s q1 d = get_context_for_query pf fmt s q2 d.
Proof.
  unfold query_class, get_context_for_query. cbv zeta.
  destruct (PyStr.contains "risk" (PyStr.lower q1)),
           (PyStr.contains "risk" (PyStr.lower q2)),
           (PyStr.contains "performance" (PyStr.lower q1) || PyStr.contains "return" (PyStr.lower q1)),
           (PyStr.contains "performance" (PyStr.lower q2) || PyStr.contains "return" (PyStr.lower q2)),
           (PyStr.contains "holding" (PyStr.lower q1) || PyStr.contains "sector" (PyStr.lower q1)),
           (PyStr.contains "holding" (PyStr.lower q2) || PyStr.contains "sector" (PyStr.lower q2));
  intros H; try discriminate H; reflexivity.
Qed.

Lemma query_class_idem q : query_class (query_class q) = query_class q.
Proof.
  unfold query_class at 2 3. cbv zeta.
  destruct (PyStr.contains "risk" (PyStr.lower q)); [reflexivity|].
  destruct (PyStr.contains "performance" (PyStr.lower q) || PyStr.contains "return" (PyStr.lower q));
    [reflexivity|].
  destruct (PyStr.contains "holding" (PyStr.lower q) || PyStr.contains "sector" (PyStr.lower q));
    reflexivity.
Qed.
End ContextFacts.

(** [get_context_for_query] reads the query only through its keyword
    class: the lower-cased query is checked for "risk" first, then for
    "performance" or "return", then for "holding" or "sector".  Any two
    queries of the same class give the same context, so the matching is
    case-insensitive and "risk" takes precedence. *)
Theorem get_context_for_query_keyword_class :
  forall pf fmt s query data,
    VectorStore.get_context_for_query pf fmt s query data =
    VectorStore.get_context_for_query pf fmt s (ContextFacts.query_class query) data.
Proof.
  intros pf fmt s query data. apply ContextFacts.context_by_class.
  symmetry. apply ContextFacts.query_class_idem.
Qed.

(** A search for [k = 0] similar portfolios returns no results: FAISS
    refuses [k = 0] and the error is caught. *)
Theorem search_similar_portfolios_k_zero :
  forall pf s data, VectorStore.search_similar_portfolios pf s data 0 = [].
Proof.
  intros pf s data. unfold VectorStore.search_similar_portfolios.
  destruct (negb (VectorStore.is_trained s) || Nat.eqb (length (VectorStore.embeddings s)) 0); [reflexivity|].
  simpl. unfold VectorStore.index_search.
  destruct (negb _); reflexivity.
Qed.

Module LockstepFacts.
Import VectorStore.

Lemma run_ops_wf pf fmt now ops st :
  (forall o, In o ops -> forall p, o <> OpLoad p) ->
  wf (fst st) -> wf (fst (fold_left (step pf fmt now) ops st)).
Proof.
  revert st. induction ops as [|o ops IH]; intros st Hno Hwf; simpl; auto.
  apply IH; [intros o' Hin; apply Hno; simpl; auto|].
  apply StoreFacts2.step_wf; auto. apply Hno; simpl; auto.
Qed.
End LockstepFacts.

(** Starting from a fresh store, any sequence of adds, searches,
    context queries, stats calls and saves (but no load) keeps the
    embeddings, the metadata and the FAISS index in lockstep.  So
    [get_stats] always reports [total_vectors = index_size]. *)
Theorem store_ops_keep_lockstep :
  forall pf fmt now d fsys ops,
    (forall o, In o ops -> forall p, o <> VectorStore.OpLoad p) ->
    let s := fst (fold_left (VectorStore.step pf fmt now) ops (VectorStore.init d, fsys)) in
    VectorStore.lockstep s /\
    VectorStore.total_vectors (VectorStore.get_stats s) = VectorStore.index_size (VectorStore.get_stats s).
Proof.
  intros pf fmt now d fsys ops Hno s.
  assert (Hwf : VectorStore.wf s).
  { apply LockstepFacts.run_ops_wf; [exact Hno|apply StoreFacts.init_wf]. }
  apply StoreFacts.wf_lockstep in Hwf as Hl. split; [exact Hl|].
  unfold VectorStore.get_stats; simpl. destruct Hl as [_ H]. exact H.
Qed.

Module EngineFacts.
Import PyOps Engine.

Lemma py_tail_length {A} n (l : list A) : length (py_tail n l) = Nat.min n (length l).
Proof. unfold py_tail. rewrite length_skipn. lia. Qed.

Lemma py_tail_suffix {A} n (l : list A) : exists pre, l = pre ++ py_tail n l.
Proof. exists (firstn (length l - n) l). unfold py_tail. now rewrite firstn_skipn. Qed.

Lemma py_tail_tail {A} m n (l : list A) : (m <= n)%nat -> py_tail m (py_tail n l) = py_tail m l.
Proof.
  intros Hmn. unfold py_tail. rewrite skipn_skipn, length_skipn. f_equal. lia.
Qed.

Lemma py_tail_snoc {A} n (l : list A) x :
  (0 < n)%nat -> exists prev, py_tail n (l ++ [x]) = prev ++ [x].
Proof.
  intros Hn. unfold py_tail. rewrite skipn_app, length_app. simpl.
  exists (skipn (length l + 1 - n) l).
  replace (length l + 1 - n - length l)%nat with 0%nat by lia. reflexivity.
Qed.

Lemma analyze_store pf fmt llc llp e d t_add t_result vs id :
  VectorStore.add_portfolio_data pf fmt t_add (vector_store e) d None = Ok (vs, id) ->
  vector_store (fst (analyze_portfolio pf fmt llc llp e d t_add t_result)) = vs /\
  chat_history (fst (analyze_portfolio pf fmt llc llp e d t_add t_result)) = chat_history e.
Proof.
  intros H. unfold analyze_portfolio. rewrite H.
  destruct (_prepare_portfolio_summary fmt d) as [ps|ex]; [|auto].
  destruct (_generate_content llc llp _ _); auto.
Qed.

Lemma analyze_no_add pf fmt llc llp e d t_add t_result ex :
  VectorStore.add_portfolio_data pf fmt t_add (vector_store e) d None = Err ex ->
  analyze_portfolio pf fmt llc llp e d t_add t_result = (e, RuntimeError ex).
Proof. intros H. unfold analyze_portfolio. now rewrite H. Qed.

Lemma chat_store pf fmt llc llp e msg d t_user t_reply :
  vector_store (fst (chat_with_portfolio pf fmt llc llp e msg d t_user t_reply)) = vector_store e.
Proof.
  unfold chat_with_portfolio. destruct (chat_request pf fmt e msg d t_user) as [h p].
  destruct (_generate_content llc llp p chat_system); reflexivity.
Qed.
End EngineFacts.

(** The chat prompt quotes the last [min 4 n] messages of the history,
    where [n] is the history length after the new user message is
    appended.  The quoted window always ends with that new message; the
    prompt also carries the vector-store context and the question. *)
Theorem chat_prompt_recent_history :
  forall pf fmt e user_message data t_user,
    let (history, prompt) := Engine.chat_request pf fmt e user_message data t_user in
    let user := Engine.mk_msg "user" user_message t_user in
    history = Engine.chat_history e ++ [user] /\
    exists older recent prev,
      history = older ++ recent /\
      length recent = Nat.min 4 (length history) /\
      recent = prev ++ [user] /\
      prompt = Engine.chat_prompt
                 (VectorStore.get_context_for_query pf fmt (Engine.vector_store e) user_message data)
                 (VectorStore.join Engine.nl (map Engine.msg_line recent)) user_message.
Proof.
  intros pf fmt e msg d t_user. unfold Engine.chat_request. cbv zeta.
  split; [reflexivity|].
  rewrite EngineFacts.py_tail_tail by lia.
  destruct (EngineFacts.py_tail_suffix 4 (Engine.chat_history e ++ [Engine.mk_msg "user" msg t_user]))
    as [older Ho].
  destruct (EngineFacts.py_tail_snoc 4 (Engine.chat_history e) (Engine.mk_msg "user" msg t_user))
    as [prev Hp]; [lia|].
  exists older, (PyOps.py_tail 4 (Engine.chat_history e ++ [Engine.mk_msg "user" msg t_user])), prev.
  split; [exact Ho|]. split; [apply EngineFacts.py_tail_length|]. split; [exact Hp|reflexivity].
Qed.

(** [analyze_portfolio] adds the snapshot to the vector store before it
    builds the summary.  If the add succeeds, the engine keeps the grown
    store (one more vector), whether or not the summary or the Gemini
    call fails afterwards.  If the add fails, the engine is unchanged
    and the add's error is reported.  The chat history is never touched,
    and a returned analysis carries the summary and the result timestamp. *)
Theorem analyze_portfolio_store_update :
  forall pf fmt llc llp e data t_add t_result,
    let (e', o) := Engine.analyze_portfolio pf fmt llc llp e data t_add t_result in
    Engine.chat_history e' = Engine.chat_history e /\
    match VectorStore.add_portfolio_data pf fmt t_add (Engine.vector_store e) data None with
    | Ok (vs, _) =>
        Engine.vector_store e' = vs /\
        VectorStore.total_vectors (Engine.get_vector_stats e')
          = S (VectorStore.total_vectors (Engine.get_vector_stats e))
    | Err ex => e' = e /\ o = Engine.RuntimeError ex
    end /\
    (forall a, o = Engine.Returned a ->
       Engine._prepare_portfolio_summary fmt data = Ok (Engine.data_summary a) /\
       Engine.an_timestamp a = t_result).
Proof.
  intros pf fmt llc llp e d t_add t_result.
  destruct (Engine.analyze_portfolio pf fmt llc llp e d t_add t_result) as [e' o] eqn:A.
  destruct (VectorStore.add_portfolio_data pf fmt t_add (Engine.vector_store e) d None)
    as [[vs id]|ex] eqn:H.
  - destruct (EngineFacts.analyze_store pf fmt llc llp e d t_add t_result vs id H) as [H1 H2].
    rewrite A in H1, H2. simpl in H1, H2. split; [exact H2|]. split.
    + split; [exact H1|]. unfold Engine.get_vector_stats, VectorStore.get_stats. simpl.
      rewrite H1. destruct (StoreFacts.add_shape _ _ _ _ _ _ _ _ H) as (_ & _ & He & _).
      rewrite He, length_app. simpl. lia.
    + intros a Ho. subst o. unfold Engine.analyze_portfolio in A. rewrite H in A.
      destruct (Engine._prepare_portfolio_summary fmt d) as [ps|ex]; [|discriminate A].
      destruct (Engine._generate_content llc llp _ _) as [t|ex]; [|discriminate A].
      injection A as _ <-. auto.
  - rewrite (EngineFacts.analyze_no_add pf fmt llc llp e d t_add t_result ex H) in A.
    injection A as <- <-. split; [reflexivity|]. split; [auto|]. intros a C; discriminate C.
Qed.

(** [analyze_portfolio], [chat_with_portfolio] and [clear_chat_history]
    keep the engine's vector store well-formed: index, embeddings and
    metadata stay in lockstep at the store's dimension. *)
Theorem engine_methods_keep_store_wf :
  forall pf fmt llc llp e,
    VectorStore.wf (Engine.vector_store e) ->
    (forall data t_add t_result,
       VectorStore.wf (Engine.vector_store
         (fst (Engine.analyze_portfolio pf fmt llc llp e data t_add t_result)))) /\
    (forall user_message data t_user t_reply,
       VectorStore.wf (Engine.vector_store
         (fst (Engine.chat_with_portfolio pf fmt llc llp e user_message data t_user t_reply)))) /\
    VectorStore.wf (Engine.vector_store (Engine.clear_chat_history e)).
Proof.
  intros pf fmt llc llp e Hwf. split; [|split].
  - intros d t_add t_result.
    destruct (VectorStore.add_portfolio_data pf fmt t_add (Engine.vector_store e) d None)
      as [[vs id]|ex] eqn:H.
    + rewrite (proj1 (EngineFacts.analyze_store pf fmt llc llp e d t_add t_result vs id H)).
      exact (StoreFacts.add_wf _ _ _ _ _ _ _ _ Hwf H).
    + now rewrite (EngineFacts.analyze_no_add pf fmt llc llp e d t_add t_result ex H).
  - intros. now rewrite EngineFacts.chat_store.
  - exact Hwf.
Qed.

Module SummaryFacts.
Import PyOps Engine MetricsFacts.

Lemma mapM_length {A B} (f : A -> res B) l ys : res_mapM f l = Ok ys -> length ys = length l.
Proof.
  revert ys. induction l as [|x l IH]; simpl; intros ys H.
  - now injection H as <-.
  - destruct (f x) as [y|e]; simpl in H; [|discriminate].
    destruct (res_mapM f l) as [ys'|e] eqn:E; simpl in H; [|discriminate].
    injection H as <-. simpl. f_equal. now apply IH.
Qed.

Lemma all_nums_length {A} (ks : list (pyval * A)) qs : all_nums ks = Some qs -> length qs = length ks.
Proof.
  revert qs. induction ks as [|[[q| | | |] x] ks IH]; simpl; intros qs H; try discriminate.
  - now injection H as <-.
  - destruct (all_nums ks) eqn:E; [|discriminate]. injection H as <-. simpl. f_equal. auto.
Qed.

Lemma all_strs_length {A} (ks : list (pyval * A)) ss : all_strs ks = Some ss -> length ss = length ks.
Proof.
  revert ss. induction ks as [|[[q| | | |] x] ks IH]; simpl; intros ss H; try discriminate.
  - now injection H as <-.
  - destruct (all_strs ks) eqn:E; [|discriminate]. injection H as <-. simpl. f_equal. auto.
Qed.

Lemma sort_desc_by_length {A} (le : A -> A -> bool) l : length (sort_desc_by le l) = length l.
Proof.
  unfold sort_desc_by. induction l as [|x l IH]; simpl; auto.
  rewrite <- IH. generalize (fold_right (insert_desc_by le) [] l). intros m.
  induction m as [|y m IHm]; simpl; auto. destruct (le y x); simpl; auto.
Qed.

Lemma py_sorted_desc_length {A} (key : A -> res pyval) xs ys :
  py_sorted_desc key xs = Ok ys -> length ys = length xs.
Proof.
  unfold py_sorted_desc.
  destruct (res_mapM _ xs) as [ks|e] eqn:K; simpl; [|discriminate].
  apply mapM_length in K.
  destruct xs as [|x [|x' xs']]; try (intros H; now injection H as <-).
  destruct (all_nums ks) as [qs|] eqn:N.
  - intros H. injection H as <-. rewrite length_map.
    rewrite (Permutation_length (sort_desc_perm fst qs)).
    rewrite (all_nums_length _ _ N). exact K.
  - destruct (all_strs ks) as [ss|] eqn:S; [|discriminate].
    intros H. injection H as <-. rewrite length_map, sort_desc_by_length.
    rewrite (all_strs_length _ _ S). exact K.
Qed.

Lemma string_length_ascii s : length (list_ascii_of_string s) = String.length s.
Proof. induction s; simpl; auto. Qed.

Lemma py_iter_length v n items : py_len v = Ok n -> py_iter v = Ok items -> length items = n.
Proof.
  destruct v; simpl; intros H1 H2; try discriminate;
    injection H1 as <-; injection H2 as <-; rewrite ?length_map; auto using string_length_ascii.
Qed.

Lemma enumerate_length {A} (xs : list A) : length (enumerate xs) = length xs.
Proof. unfold enumerate. rewrite length_combine, length_seq. lia. Qed.

(** [no_zdiv] of a formatting call, from the formatter's own guarantee. *)
Section NoZdiv.
Variable fmt : pyval -> string -> res string.
Hypothesis Hfmt : forall v spec, fmt v spec <> Err ZeroDivisionError.

Lemma fmt_no_zdiv v spec : no_zdiv (fmt v spec).
Proof.
  specialize (Hfmt v spec). destruct (fmt v spec) as [|[]]; simpl; auto.
Qed.

Lemma fld_no_zdiv x k d spec : no_zdiv (fld fmt x k d spec).
Proof.
  unfold fld. apply bind_no_zdiv; [apply py_get_no_zdiv|]. intros; apply fmt_no_zdiv.
Qed.

Lemma py_len_no_zdiv v : no_zdiv (py_len v).
Proof. destruct v; simpl; trivial. Qed.

Lemma py_iter_no_zdiv v : no_zdiv (py_iter v).
Proof. destruct v; simpl; trivial. Qed.

Lemma py_items_no_zdiv v : no_zdiv (py_items v).
Proof. destruct v; simpl; trivial. Qed.

Lemma py_contains_no_zdiv k v : no_zdiv (py_contains k v).
Proof. destruct v; simpl; trivial. Qed.

Lemma py_getitem_no_zdiv v k : no_zdiv (VectorStore.py_getitem v k).
Proof. destruct v; simpl; trivial. destruct (assoc kv k); simpl; trivial. Qed.

Lemma py_sorted_desc_no_zdiv {A} (key : A -> res pyval) xs :
  (forall x, no_zdiv (key x)) -> no_zdiv (py_sorted_desc key xs).
Proof.
  intros Hk. unfold py_sorted_desc. apply bind_no_zdiv.
  - apply mapM_no_zdiv. intros x _. apply bind_no_zdiv; [apply Hk|]. intros; exact I.
  - intros ks _. destruct xs as [|x [|x' xs']]; simpl; trivial.
    destruct (all_nums ks); simpl; trivial. destruct (all_strs ks); simpl; trivial.
Qed.

Ltac nz :=
  repeat match goal with
  | |- no_zdiv (res_bind _ _) => apply bind_no_zdiv; [|intros ? ?]
  | |- no_zdiv (Ok _) => exact I
  | |- no_zdiv (fld _ _ _ _ _) => apply fld_no_zdiv
  | |- no_zdiv (fmt _ _) => apply fmt_no_zdiv
  | |- no_zdiv (py_get _ _ _) => apply py_get_no_zdiv
  | |- no_zdiv (py_len _) => apply py_len_no_zdiv
  | |- no_zdiv (py_iter _) => apply py_iter_no_zdiv
  | |- no_zdiv (py_items _) => apply py_items_no_zdiv
  | |- no_zdiv (py_contains _ _) => apply py_contains_no_zdiv
  | |- no_zdiv (VectorStore.py_getitem _ _) => apply py_getitem_no_zdiv
  | |- no_zdiv (VectorStore.py_values _) => apply py_values_no_zdiv
  | |- no_zdiv (py_sum _) => apply py_sum_no_zdiv
  | |- no_zdiv (py_sorted_desc _ _) => apply py_sorted_desc_no_zdiv; intros ?
  | |- no_zdiv (res_mapM _ _) => apply mapM_no_zdiv; intros [? ?] _
  | |- no_zdiv (let (_, _) := ?p in _) => destruct p
  end.

Lemma prepare_no_zdiv data : no_zdiv (_prepare_portfolio_summary fmt data).
Proof.
  unfold _prepare_portfolio_summary.
  apply bind_no_zdiv.
  { unfold opt_section. destruct (assoc data "portfolio_summary"); [|exact I].
    unfold portfolio_lines. nz. }
  intros p1 _. apply bind_no_zdiv.
  { unfold opt_section. destruct (assoc data "performance_summary"); [|exact I].
    unfold performance_lines. nz. }
  intros p2 _. apply bind_no_zdiv.
  { unfold opt_section. destruct (assoc data "risk_summary"); [|exact I].
    unfold risk_lines. nz. }
  intros p3 _. apply bind_no_zdiv.
  { unfold holdings_section.
    assert (Htop : no_zdiv (match assoc data "top_holdings" with
                            | Some th => if truthy th then top_holdings_lines fmt th else Ok []
                            | None => Ok [] end)).
    { destruct (assoc data "top_holdings") as [th|]; [|exact I].
      destruct (truthy th); [|exact I]. unfold top_holdings_lines.
      nz. unfold top_holding_line. nz. }
    destruct (assoc data "raw_holdings_df") as [raw|]; [|exact Htop].
    destruct (truthy raw); [|exact Htop]. unfold raw_holdings_lines.
    nz. unfold raw_holding_line. nz. }
  intros p4 _. apply bind_no_zdiv.
  { unfold sector_section. destruct (assoc data "sector_allocation") as [sa|]; [|exact I].
    destruct (truthy sa); [|exact I].
    apply bind_no_zdiv; [apply py_values_no_zdiv|intros ? ?].
    apply bind_no_zdiv; [apply py_sum_no_zdiv|intros total _].
    apply bind_no_zdiv; [apply py_items_no_zdiv|intros ? ?].
    apply bind_no_zdiv; [apply py_sorted_desc_no_zdiv; intros; exact I|intros ? ?].
    apply bind_no_zdiv; [|intros; exact I].
    apply mapM_no_zdiv. intros [sector value] _. unfold sector_line.
    apply bind_no_zdiv.
    - destruct (Qlt_bool 0 total) eqn:E; [|exact I].
      apply truediv_no_zdiv. intros y Hy. injection Hy as <-.
      apply Qlt_bool_true in E. intros C. rewrite C in E. apply (Qlt_irrefl 0 E).
    - intros. nz. }
  intros p5 _. apply bind_no_zdiv; [|intros; exact I].
  unfold geo_section. destruct (assoc data "holdings_data") as [hd|]; [|exact I].
  apply bind_no_zdiv; [apply py_contains_no_zdiv|intros has _].
  destruct has; [|exact I]. nz.
Qed.
End NoZdiv.
End SummaryFacts.

(** [_prepare_portfolio_summary] never raises [ZeroDivisionError] when
    the value formatting itself does not.  The sector weight divides only
    by a positive total. *)
Theorem prepare_portfolio_summary_no_zero_division :
  forall fmt : pyval -> string -> res string,
    (forall v spec, fmt v spec <> Err ZeroDivisionError) ->
    forall data, Engine._prepare_portfolio_summary fmt data <> Err ZeroDivisionError.
Proof.
  intros fmt Hfmt data H.
  pose proof (SummaryFacts.prepare_no_zdiv fmt Hfmt data) as Hn.
  rewrite H in Hn. exact Hn.
Qed.

(** When [raw_holdings_df] is present and truthy, the summary does not
    depend on [top_holdings]: two inputs that differ only at that key give
    the same summary. *)
Theorem prepare_portfolio_summary_raw_over_top :
  forall fmt data data' raw,
    assoc data "raw_holdings_df" = Some raw -> truthy raw = true ->
    (forall k, k <> "top_holdings"%string -> assoc data' k = assoc data k) ->
    Engine._prepare_portfolio_summary fmt data' = Engine._prepare_portfolio_summary fmt data.
Proof.
  intros fmt data data' raw Hraw Ht Hk.
  unfold Engine._prepare_portfolio_summary, Engine.opt_section, Engine.holdings_section,
    Engine.sector_section, Engine.geo_section.
  rewrite (Hk "portfolio_summary"), (Hk "performance_summary"), (Hk "risk_summary"),
    (Hk "raw_holdings_df"), (Hk "sector_allocation"), (Hk "holdings_data") by discriminate.
  rewrite Hraw, Ht. reflexivity.
Qed.

(** The holdings sections list one line per holding: the complete list
    has [len(holdings) + 4] lines (three header lines and a blank line),
    and the top-holdings fallback has [len(top_holdings) + 3]. *)
Theorem holdings_sections_one_line_per_holding :
  forall fmt v lines,
    (Engine.raw_holdings_lines fmt v = Ok lines ->
     exists n, PyOps.py_len v = Ok n /\ length lines = (n + 4)%nat) /\
    (Engine.top_holdings_lines fmt v = Ok lines ->
     exists n, PyOps.py_len v = Ok n /\ length lines = (n + 3)%nat).
Proof.
  intros fmt v lines. split.
  - unfold Engine.raw_holdings_lines. intros H.
    destruct (PyOps.py_len v) as [n|e] eqn:L; simpl in H; [|discriminate].
    destruct (fmt _ _) as [ns|e]; simpl in H; [|discriminate].
    destruct (PyOps.py_iter v) as [items|e] eqn:I; simpl in H; [|discriminate].
    destruct (PyOps.py_sorted_desc _ items) as [sorted|e] eqn:S; simpl in H; [|discriminate].
    destruct (res_mapM _ _) as [ls|e] eqn:M; simpl in H; [|discriminate].
    injection H as <-. exists n. split; [reflexivity|].
    apply SummaryFacts.mapM_length in M. apply SummaryFacts.py_sorted_desc_length in S.
    rewrite SummaryFacts.enumerate_length in M.
    simpl. rewrite length_app. simpl.
    rewrite M, S, (SummaryFacts.py_iter_length _ _ _ L I). lia.
  - unfold Engine.top_holdings_lines. intros H.
    destruct (PyOps.py_len v) as [n|e] eqn:L; simpl in H; [|discriminate].
    destruct (fmt _ _) as [ns|e]; simpl in H; [|discriminate].
    destruct (PyOps.py_iter v) as [items|e] eqn:I; simpl in H; [|discriminate].
    destruct (res_mapM _ _) as [ls|e] eqn:M; simpl in H; [|discriminate].
    injection H as <-. exists n. split; [reflexivity|].
    apply SummaryFacts.mapM_length in M.
    rewrite SummaryFacts.enumerate_length in M.
    simpl. rewrite length_app. simpl.
    rewrite M, (SummaryFacts.py_iter_length _ _ _ L I). lia.
Qed.

Module SessionFacts.
Import Frontend.

Lemma init_default_eq (ss : gmap string sval) k v :
  init_default ss (k, v) = match ss !! k with Some _ => ss | None => <[k:=v]> ss end.
Proof. reflexivity. Qed.

Lemma fold_init_union (l : list (string * sval)) (ss : session) :
  fold_left init_default l ss = ss ∪ list_to_map l.
Proof.
  unfold session in *. revert ss. induction l as [|[k v] l IH]; intros ss; cbn [fold_left].
  - by rewrite list_to_map_nil, map_union_empty.
  - rewrite IH, list_to_map_cons. apply map_eq. intros j.
    rewrite init_default_eq. destruct (ss !! k) as [x|] eqn:E.
    + rewrite !lookup_union. destruct (decide (j = k)) as [->|Hne].
      * rewrite lookup_insert_eq, E. destruct (list_to_map l !! k); reflexivity.
      * rewrite lookup_insert_ne by congruence. reflexivity.
    + rewrite !lookup_union. destruct (decide (j = k)) as [->|Hne].
      * rewrite !lookup_insert_eq, E. destruct (list_to_map l !! k); reflexivity.
      * rewrite !lookup_insert_ne by congruence. reflexivity.
Qed.
End SessionFacts.

(** [initialize_session_state] keeps every value already in the session
    state, adds the default for each missing key and touches no other
    key: the result is the left-biased union of the state with the
    defaults. *)
Theorem initialize_session_state_fills_missing :
  forall ss : Frontend.session,
    Frontend.initialize_session_state ss = ss ∪ list_to_map Frontend.session_defaults.
Proof. intros ss. apply SessionFacts.fold_init_union. Qed.

(** Running [initialize_session_state] again (as every Streamlit rerun
    does) changes nothing. *)
Theorem initialize_session_state_idempotent :
  forall ss : Frontend.session,
    Frontend.initialize_session_state (Frontend.initialize_session_state ss)
    = Frontend.initialize_session_state ss.
Proof.
  intros ss. unfold Frontend.initialize_session_state.
  rewrite !SessionFacts.fold_init_union.
  unfold Frontend.session in *. rewrite <- (assoc_L union). by rewrite map_union_idemp.
Qed.

(** [validate_data_completeness] raises [AttributeError] when
    [holdings_data] is present but not a dict.  Otherwise it raises
    [TypeError] when [historical_performance] is a number or [None], and
    in all other cases it returns the five flags in their fixed order. *)
Theorem validate_data_completeness_failures :
  forall data,
    (forall v, assoc data "holdings_data" = Some v -> (forall kv, v <> PDict kv) ->
       Frontend.validate_data_completeness data = Err AttributeError) /\
    (forall kv, (assoc data "holdings_data" = Some (PDict kv) \/ assoc data "holdings_data" = None) ->
       (assoc data "historical_performance" = Some PNone \/
        exists q, assoc data "historical_performance" = Some (PNum q)) ->
       Frontend.validate_data_completeness data = Err TypeError) /\
    (forall kv, (assoc data "holdings_data" = Some (PDict kv) \/ assoc data "holdings_data" = None) ->
       (forall v, assoc data "historical_performance" = Some v -> v <> PNone /\ forall q, v <> PNum q) ->
       exists flags, Frontend.validate_data_completeness data = Ok flags /\
         map fst flags = ["portfolio_overview"; "holdings_data"; "performance_data"; "risk_data";
                          "historical_data"]%string).
Proof.
  intros data. unfold Frontend.validate_data_completeness, dict_get. split; [|split].
  - intros v Hv Hnd. rewrite Hv.
    destruct v as [q|s| |kv|l]; simpl; try reflexivity. exfalso; exact (Hnd kv eq_refl).
  - intros kv Hh Hp.
    assert (Hth : exists th, py_get (match assoc data "holdings_data" with
                                     | Some x => x | None => PDict [] end) "top_holdings" PNone = Ok th).
    { destruct Hh as [-> | ->]; simpl; eauto. }
    destruct Hth as [th ->]. simpl.
    destruct Hp as [-> | [q ->]]; reflexivity.
  - intros kv Hh Hp.
    assert (Hth : exists th, py_get (match assoc data "holdings_data" with
                                     | Some x => x | None => PDict [] end) "top_holdings" PNone = Ok th).
    { destruct Hh as [-> | ->]; simpl; eauto. }
    destruct Hth as [th ->]. simpl.
    destruct (assoc data "historical_performance") as [v|] eqn:E; [|simpl; eauto].
    destruct (Hp v eq_refl) as [H1 H2].
    destruct v as [q|s| |kv'|l]; simpl; eauto.
    + exfalso; exact (H2 q eq_refl).
    + exfalso; exact (H1 eq_refl).
Qed.

Module AlertFacts.
Import Frontend.

Definition kind (a : alert) : string * string := (a_type a, a_title a).

Lemma bind_assoc {A B C} (c : res A) (f : A -> res B) (g : B -> res C) :
  res_bind (res_bind c f) g = res_bind c (fun x => res_bind (f x) g).
Proof. destruct c; reflexivity. Qed.

Ltac split_res H :=
  repeat (simpl in H; match type of H with
  | res_bind (if ?b then _ else _) _ = Ok _ => destruct b
  | res_bind (res_bind _ _) _ = Ok _ => rewrite bind_assoc in H
  | res_bind ?c _ = Ok _ => destruct c; [|discriminate H]
  | (if ?b then _ else _) = Ok _ => destruct b
  end).

Lemma perf_alerts_kinds fmt perf al :
  perf_alerts fmt perf = Ok al ->
  map kind al `sublist_of` [("warning", "Poor Performance"); ("warning", "Low Risk-Adjusted Returns")]%string.
Proof.
  unfold perf_alerts. intros H. split_res H.
  all: injection H as <-; simpl; repeat constructor.
Qed.

Lemma risk_alerts_kinds fmt risk al :
  risk_alerts fmt risk = Ok al ->
  map kind al `sublist_of` [("error", "High Concentration Risk"); ("warning", "High Value at Risk")]%string.
Proof.
  unfold risk_alerts. intros H. split_res H.
  all: injection H as <-; simpl; repeat constructor.
Qed.

Lemma holdings_alerts_cases fmt h al :
  holdings_alerts fmt h = Ok al ->
  ((exists n, py_get h "total_holdings" (PNum 0) = Ok (PNum n) /\ n < 10) /\
   map kind al = [("info", "Limited Diversification")]%string) \/
  (~ (exists n, py_get h "total_holdings" (PNum 0) = Ok (PNum n) /\ n < 10) /\ al = []).
Proof.
  unfold holdings_alerts. intros H.
  destruct (py_get h "total_holdings" (PNum 0)) as [th|e] eqn:G; simpl in H; [|discriminate H].
  destruct th as [n|s| |kv|l]; simpl in H; try discriminate H.
  destruct (Qlt_bool n 10) eqn:L; simpl in H.
  - destruct (fmt (PNum n) "") as [s|e]; simpl in H; [|discriminate H].
    injection H as <-. left. split; [|reflexivity].
    exists n. split; [reflexivity|]. now apply MetricsFacts.Qlt_bool_true.
  - injection H as <-. right. split; [|reflexivity].
    intros (m & Hm & Hlt). injection Hm as <-.
    apply MetricsFacts.Qlt_bool_false in L. apply (Qlt_not_le _ _ Hlt L).
Qed.

Lemma generate_alerts_parts fmt data al :
  generate_alerts fmt data = Ok al ->
  exists a b c, al = a ++ b ++ c /\
    map kind a `sublist_of` [("warning", "Poor Performance"); ("warning", "Low Risk-Adjusted Returns")]%string /\
    map kind b `sublist_of` [("error", "High Concentration Risk"); ("warning", "High Value at Risk")]%string /\
    opt_alerts data "holdings_data" (holdings_alerts fmt) = Ok c.
Proof.
  unfold generate_alerts. intros H.
  destruct (opt_alerts data "performance_summary" (perf_alerts fmt)) as [a|e] eqn:A; simpl in H; [|discriminate H].
  destruct (opt_alerts data "risk_summary" (risk_alerts fmt)) as [b|e] eqn:B; simpl in H; [|discriminate H].
  destruct (opt_alerts data "holdings_data" (holdings_alerts fmt)) as [c|e] eqn:C; simpl in H; [|discriminate H].
  injection H as <-. exists a, b, c. split; [reflexivity|]. split; [|split; [|reflexivity]].
  - unfold opt_alerts in A. destruct (assoc data "performance_summary").
    + exact (perf_alerts_kinds _ _ _ A).
    + injection A as <-. apply sublist_nil_l.
  - unfold opt_alerts in B. destruct (assoc data "risk_summary").
    + exact (risk_alerts_kinds _ _ _ B).
    + injection B as <-. apply sublist_nil_l.
Qed.
End AlertFacts.

(** [generate_alerts] produces each kind of alert at most once, in a
    fixed order: poor performance, low risk-adjusted returns, high
    concentration, high VaR, limited diversification. *)
Theorem generate_alerts_fixed_order :
  forall fmt data alerts,
    Frontend.generate_alerts fmt data = Ok alerts ->
    map AlertFacts.kind alerts `sublist_of`
      [("warning", "Poor Performance"); ("warning", "Low Risk-Adjusted Returns");
       ("error", "High Concentration Risk"); ("warning", "High Value at Risk");
       ("info", "Limited Diversification")]%string.
Proof.
  intros fmt data al H.
  destruct (AlertFacts.generate_alerts_parts _ _ _ H) as (a & b & c & -> & Ha & Hb & Hc).
  rewrite !map_app.
  change [("warning", "Poor Performance"); ("warning", "Low Risk-Adjusted Returns");
          ("error", "High Concentration Risk"); ("warning", "High Value at Risk");
          ("info", "Limited Diversification")]%string
    with (app [("warning", "Poor Performance"); ("warning", "Low Risk-Adjusted Returns")]%string
          (app [("error", "High Concentration Risk"); ("warning", "High Value at Risk")]%string
               [("info", "Limited Diversification")]%string)).
  apply sublist_app; [exact Ha|]. apply sublist_app; [exact Hb|].
  unfold Frontend.opt_alerts in Hc. destruct (assoc data "holdings_data") as [h|].
  - destruct (AlertFacts.holdings_alerts_cases _ _ _ Hc) as [[_ ->]|[_ ->]].
    + reflexivity.
    + apply sublist_nil_l.
  - injection Hc as <-. apply sublist_nil_l.
Qed.

(** The "Limited Diversification" alert is raised exactly when
    [holdings_data] is present and its [total_holdings] (default 0) is a
    number below 10.  In particular a holdings dict without
    [total_holdings] always triggers it. *)
Theorem generate_alerts_limited_diversification :
  forall fmt data alerts,
    Frontend.generate_alerts fmt data = Ok alerts ->
    (In ("info", "Limited Diversification")%string (map AlertFacts.kind alerts) <->
     exists h n, assoc data "holdings_data" = Some h /\
                 py_get h "total_holdings" (PNum 0) = Ok (PNum n) /\ n < 10).
Proof.
  intros fmt data al H.
  destruct (AlertFacts.generate_alerts_parts _ _ _ H) as (a & b & c & -> & Ha & Hb & Hc).
  rewrite !map_app, !in_app_iff.
  assert (Na : ~ In ("info", "Limited Diversification")%string (map AlertFacts.kind a)).
  { intros Hin. apply sublist_subseteq in Ha.
    apply list_elem_of_In, Ha, list_elem_of_In in Hin. simpl in Hin.
    destruct Hin as [C|[C|[]]]; injection C as C1 C2; discriminate C1. }
  assert (Nb : ~ In ("info", "Limited Diversification")%string (map AlertFacts.kind b)).
  { intros Hin. apply sublist_subseteq in Hb.
    apply list_elem_of_In, Hb, list_elem_of_In in Hin. simpl in Hin.
    destruct Hin as [C|[C|[]]]; injection C as C1 C2; discriminate C1. }
  unfold Frontend.opt_alerts in Hc. destruct (assoc data "holdings_data") as [h|].
  - destruct (AlertFacts.holdings_alerts_cases _ _ _ Hc) as [[Hn ->]|[Hn ->]].
    + split; [intros _|intros _; right; right; left; reflexivity].
      destruct Hn as (n & Hn & Hlt). exists h, n. auto.
    + split.
      * intros [C|[C|C]]; [contradiction|contradiction|destruct C].
      * intros (h' & n & Hh & Hg & Hlt). injection Hh as <-. exfalso. apply Hn. eauto.
  - injection Hc as <-. split.
    + intros [C|[C|C]]; [contradiction|contradiction|destruct C].
    + intros (h' & n & Hh & _). discriminate Hh.
Qed.

Module CurrencyFacts.
Import Frontend.

End CurrencyFacts.


Module TimeSeriesFacts.
Import TimeSeries.

Lemma lookup_str_present (df : frame) c :
  existsb (String.eqb c) (df_columns df) = true -> exists col, lookup_str df c = Some col.
Proof.
  induction df as [|[k v] df IH]; simpl; [discriminate|].
  destruct (String.eqb c k) eqn:E; simpl; eauto.
Qed.

Lemma lookup_str_absent (df : frame) c :
  existsb (String.eqb c) (df_columns df) = false -> lookup_str df c = None.
Proof.
  induction df as [|[k v] df IH]; simpl; [reflexivity|].
  destruct (String.eqb c k) eqn:E; simpl; [discriminate|auto].
Qed.

Lemma select_ok df cols :
  Forall (fun c => existsb (String.eqb c) (df_columns df) = true) cols ->
  exists df', select df cols = Ok df' /\ map fst df' = cols /\
              Forall (fun cv => lookup_str df (fst cv) = Some (snd cv)) df'.
Proof.
  unfold select. induction 1 as [|c cols Hc Hcols IH]; simpl.
  - exists []. auto.
  - destruct (lookup_str_present df c Hc) as [col Hcol]. rewrite Hcol. simpl.
    destruct IH as (df' & -> & Hm & Hf). simpl.
    exists ((c, col) :: df'). simpl. rewrite Hm. auto.
Qed.

Lemma filter_present df cs :
  Forall (fun c => existsb (String.eqb c) (df_columns df) = true)
         (List.filter (fun col => existsb (String.eqb col) (df_columns df)) cs).
Proof.
  apply List.Forall_forall. intros c Hin. apply filter_In in Hin. apply Hin.
Qed.
End TimeSeriesFacts.

(** [get_time_series_data] raises [ValueError "Sheet <name> not found"]
    for a missing sheet, and returns the whole sheet when no columns
    (or an empty list) are asked for.  Otherwise it selects "Date"
    followed by the requested columns that exist, in the requested order,
    with the sheet's data.  It raises [KeyError] only when the sheet has
    no "Date" column. *)
Theorem get_time_series_data_columns :
  forall data sheet_name columns,
    match TimeSeries.lookup_str data sheet_name with
    | None =>
        TimeSeries.get_time_series_data data sheet_name columns
        = Err (ValueError ("Sheet " ++ sheet_name ++ " not found"))
    | Some df =>
        match columns with
        | Some ((_ :: _) as cs) =>
            let present := List.filter
                  (fun col => existsb (String.eqb col) (TimeSeries.df_columns df)) cs in
            if existsb (String.eqb "Date") (TimeSeries.df_columns df) then
              exists df',
                TimeSeries.get_time_series_data data sheet_name columns = Ok df' /\
                TimeSeries.df_columns df' = "Date" :: present /\
                Forall (fun cv => TimeSeries.lookup_str df (fst cv) = Some (snd cv)) df'
            else TimeSeries.get_time_series_data data sheet_name columns = Err KeyError
        | _ => TimeSeries.get_time_series_data data sheet_name columns = Ok df
        end
    end%string.
Proof.
  intros data name columns. unfold TimeSeries.get_time_series_data.
  destruct (TimeSeries.lookup_str data name) as [df|]; [|reflexivity].
  destruct columns as [[|c cs]|]; try reflexivity. cbv zeta.
  destruct (existsb (String.eqb "Date") (TimeSeries.df_columns df)) eqn:D.
  - apply TimeSeriesFacts.select_ok. constructor; [exact D|apply TimeSeriesFacts.filter_present].
  - unfold TimeSeries.select. simpl.
    rewrite (TimeSeriesFacts.lookup_str_absent df "Date" D). reflexivity.
Qed.

(* ------------------------------------------------------------------ *)
(** * Witnesses: each theorem above applied at a concrete input *)


(** C7 at two successful calls of [add_portfolio_data] from an empty
    store, and at one [OpAdd] step. *)
Lemma add_portfolio_data_never_evicts_witness :
  (exists s,
     VectorStore.run_adds (fun _ => None) (fun _ _ => Ok "x"%string) "now"
       (VectorStore.init 1) [([], None); ([], Some "t"%string)] = Ok (s, [0; 1]%nat) /\
     length (VectorStore.embeddings s) = 2%nat) /\
  (exists e m,
     VectorStore.embeddings
       (fst (VectorStore.step (fun _ => None) (fun _ _ => Ok "x"%string) "now"
               (VectorStore.init 1, ∅) (VectorStore.OpAdd [] None))) = [] ++ e /\
     VectorStore.s_metadata
       (fst (VectorStore.step (fun _ => None) (fun _ _ => Ok "x"%string) "now"
               (VectorStore.init 1, ∅) (VectorStore.OpAdd [] None))) = [] ++ m).
Proof.
  split.
  - destruct (VectorStore.run_adds (fun _ => None) (fun _ _ => Ok "x"%string) "now"
                (VectorStore.init 1) [([], None); ([], Some "t"%string)])
      as [[s ids]|e] eqn:E; [|vm_compute in E; discriminate E].
    destruct (proj1 add_portfolio_data_never_evicts _ _ _ _ _ _ _ E) as (Hids & Hlen & _).
    simpl in Hids. subst ids. exists s. split; [reflexivity|exact Hlen].
  - exact (proj2 add_portfolio_data_never_evicts (fun _ => None) (fun _ _ => Ok "x"%string)
             "now" (VectorStore.init 1, ∅) (VectorStore.OpAdd [] None)
             ltac:(intros p; discriminate)).
Defined.

(** C9 at an empty file system: [load_index] finds no index file. *)
Lemma save_load_roundtrip_witness :
  (∅ : VectorStore.fs) !! VectorStore.index_path "p" = None /\
  VectorStore.load_index (VectorStore.init 1) ∅ "p" = (VectorStore.init 1, false).
Proof.
  assert (H : (∅ : VectorStore.fs) !! VectorStore.index_path "p" = None) by reflexivity.
  split; [exact H|].
  exact (proj2 save_load_roundtrip (VectorStore.init 1) ∅ "p" H).
Defined.

(** C3 at an empty workbook (Benchmarks is missing) and at a workbook
    of the seven sheets. *)
Lemma load_excel_file_sheet_validation_witness :
  (exists missing,
     DataProcessor.load_excel_file (DataFrame := unit) (fun _ => Ok 0%nat) [] =
       Err (ValueError ("Missing required sheet: " ++ missing))) /\
  DataProcessor.load_excel_file (fun _ => Ok 0%nat)
    (map (fun n => (n, tt)) DataProcessor.expected_sheets) = Ok 0%nat.
Proof.
  split.
  - assert (Hin : In "Benchmarks"%string DataProcessor.expected_sheets)
      by (simpl; tauto).
    destruct (proj1 load_excel_file_sheet_validation unit nat (fun _ => Ok 0%nat) []
                "Benchmarks" Hin eq_refl) as (missing & H & _).
    exists missing. exact H.
  - apply (proj2 load_excel_file_sheet_validation unit nat (fun _ => Ok 0%nat)).
    intros sheet Hin. simpl in Hin.
    repeat (destruct Hin as [<-|Hin]; [reflexivity|]). destruct Hin.
Defined.

(** C4 at two holdings of one sector. *)
Lemma top_holdings_and_sector_allocation_witness :
  let perf := DataProcessor.mk_ts_row (Some 1%Z)
      [("Portfolio_Value", PNum 100); ("Cumulative_Return", PNum 5);
       ("Daily_Return", PNum 0); ("Volatility", PNum 0); ("Sharpe_Ratio", PNum 0);
       ("Max_Drawdown", PNum 0); ("Active_Return", PNum 0)]%string in
  let risk := DataProcessor.mk_ts_row (Some 1%Z)
      [("Portfolio_Beta", PNum 1); ("VaR_95", PNum 0); ("CVaR_95", PNum 0);
       ("Tracking_Error", PNum 0); ("Correlation_Benchmark", PNum 0);
       ("Concentration_Risk", PNum 0); ("Liquidity_Score", PNum 0)]%string in
  let t := DataProcessor.mk_tables
      [DataProcessor.mk_holding "A" "A" 3 1 "Tech" [];
       DataProcessor.mk_holding "B" "B" 4 1 "Tech" []] [perf] [risk] in
  exists p, DataProcessor.process t = Ok p /\
    length (DataProcessor.p_top_holdings p) = 2%nat /\
    DataProcessor.p_sector_allocation p !! "Tech"%string = Some (0 + 3 + 4).
Proof.
  intros perf risk t.
  destruct (DataProcessor.process t) as [p|e] eqn:E; [|vm_compute in E; discriminate E].
  destruct (top_holdings_and_sector_allocation t p E) as (Hl & _ & Hs).
  exists p. split; [reflexivity|split; [exact Hl|]].
  rewrite Hs. reflexivity.
Defined.

(** Extra: two dated performance rows, out of order; the summary comes
    from the row dated day 2. *)
Lemma summaries_read_last_row_after_date_sort_witness :
  let perf_row (d : Z) (v : Q) := DataProcessor.mk_ts_row (Some d)
      [("Portfolio_Value", PNum 100); ("Cumulative_Return", PNum v);
       ("Daily_Return", PNum 0); ("Volatility", PNum 0); ("Sharpe_Ratio", PNum 0);
       ("Max_Drawdown", PNum 0); ("Active_Return", PNum 0)]%string in
  let risk := DataProcessor.mk_ts_row (Some 1%Z)
      [("Portfolio_Beta", PNum 1); ("VaR_95", PNum 0); ("CVaR_95", PNum 0);
       ("Tracking_Error", PNum 0); ("Correlation_Benchmark", PNum 0);
       ("Concentration_Risk", PNum 0); ("Liquidity_Score", PNum 0)]%string in
  let t := DataProcessor.mk_tables [] [perf_row 2%Z 5; perf_row 1%Z 3] [risk] in
  exists p r, DataProcessor.process t = Ok p /\
    DataProcessor.iloc_last (DataProcessor.sort_values_Date (DataProcessor.Historical_Performance t))
      = Ok r /\
    DataProcessor.perf_fields r = Ok (DataProcessor.p_performance_summary p) /\
    DataProcessor.Date r = Some 2%Z.
Proof.
  intros perf_row risk t.
  destruct (DataProcessor.process t) as [p|e] eqn:E; [|vm_compute in E; discriminate E].
  destruct (summaries_read_last_row_after_date_sort t p E) as ((r & Hr & _ & Hf & _) & _).
  exists p, r. split; [reflexivity|]. split; [exact Hr|]. split; [exact Hf|].
  vm_compute in Hr. injection Hr as <-. reflexivity.
Defined.


(** C10 at a performance summary with a positive volatility and a
    negative max drawdown. *)
Lemma calculate_portfolio_metrics_guarded_divisions_witness :
  exists ms,
    Utils.calculate_portfolio_metrics
      [("performance_summary",
        PDict [("total_return", PNum 1); ("volatility", PNum 2);
               ("max_drawdown", PNum (-1))])]%string = Ok ms /\
    In ("return_volatility_ratio"%string, Utils.MNum (1 / 2)) ms /\
    In ("recovery_factor"%string, Utils.MNum (1 / Qabs (-1))) ms.
Proof.
  destruct (Utils.calculate_portfolio_metrics
      [("performance_summary",
        PDict [("total_return", PNum 1); ("volatility", PNum 2);
               ("max_drawdown", PNum (-1))])]%string) as [ms|e] eqn:E;
    [|vm_compute in E; discriminate E].
  destruct (proj1 (proj2 (calculate_portfolio_metrics_guarded_divisions
      [("performance_summary",
        PDict [("total_return", PNum 1); ("volatility", PNum 2);
               ("max_drawdown", PNum (-1))])]%string))
      (PDict [("total_return", PNum 1); ("volatility", PNum 2);
              ("max_drawdown", PNum (-1))])%string
      1 2 (-1) ms eq_refl eq_refl eq_refl eq_refl E) as [H1 H2].
  exists ms. split; [reflexivity|split; [exact H1|exact H2]].
Defined.

(** Extra: an add, a save and a stats call from a fresh store. *)
Lemma store_ops_keep_lockstep_witness :
  VectorStore.lockstep
    (fst (fold_left (VectorStore.step (fun _ => None) (fun _ _ => Ok "x"%string) "t"%string)
            [VectorStore.OpAdd [] None; VectorStore.OpSave "p"; VectorStore.OpStats]
            (VectorStore.init 1, ∅))).
Proof.
  apply (store_ops_keep_lockstep (fun _ => None) (fun _ _ => Ok "x"%string) "t"%string 1 ∅
           [VectorStore.OpAdd [] None; VectorStore.OpSave "p"; VectorStore.OpStats]).
  intros o Hin p. simpl in Hin.
  destruct Hin as [<-|[<-|[<-|[]]]]; discriminate.
Defined.

(** Extra: an analysis of an empty snapshot with a succeeding Gemini call. *)
Lemma analyze_portfolio_store_update_witness :
  exists a,
    snd (Engine.analyze_portfolio (fun _ => None) (fun _ _ => Ok "x"%string)
           (fun _ => Ok (Ok "ok"%string)) (fun _ => Err KeyError) Engine.new_engine [] "t1" "t2")
      = Engine.Returned a /\
    Engine._prepare_portfolio_summary (fun _ _ => Ok "x"%string) [] = Ok (Engine.data_summary a) /\
    Engine.an_timestamp a = "t2"%string.
Proof.
  pose proof (analyze_portfolio_store_update (fun _ => None) (fun _ _ => Ok "x"%string)
           (fun _ => Ok (Ok "ok"%string)) (fun _ => Err KeyError) Engine.new_engine [] "t1" "t2") as H.
  destruct (Engine.analyze_portfolio (fun _ => None) (fun _ _ => Ok "x"%string)
           (fun _ => Ok (Ok "ok"%string)) (fun _ => Err KeyError) Engine.new_engine [] "t1" "t2")
    as [e' o] eqn:E.
  destruct o as [a|ex]; [|vm_compute in E; discriminate E].
  destruct H as (_ & _ & H3). exists a. split; [reflexivity|]. apply H3. reflexivity.
Defined.

(** Extra: the fresh engine's store after an analysis. *)
Lemma engine_methods_keep_store_wf_witness :
  VectorStore.wf (Engine.vector_store
    (fst (Engine.analyze_portfolio (fun _ => None) (fun _ _ => Ok "x"%string)
            (fun _ => Ok (Ok "ok"%string)) (fun _ => Err KeyError) Engine.new_engine [] "t1" "t2"))).
Proof.
  apply (engine_methods_keep_store_wf (fun _ => None) (fun _ _ => Ok "x"%string)
           (fun _ => Ok (Ok "ok"%string)) (fun _ => Err KeyError) Engine.new_engine).
  vm_compute. split; [reflexivity|split; [reflexivity|split; [reflexivity|]]].
  intros C. exfalso. apply C. reflexivity.
Defined.

(** Extra: a sector allocation whose values sum to zero. *)
Lemma prepare_portfolio_summary_no_zero_division_witness :
  Engine._prepare_portfolio_summary (fun _ _ => Ok "x"%string)
    [("sector_allocation", PDict [("IT", PNum 0)])]%string <> Err ZeroDivisionError.
Proof.
  apply (prepare_portfolio_summary_no_zero_division (fun _ _ => Ok "x"%string)).
  intros v spec C. discriminate C.
Defined.

(** Extra: a raw holdings list makes a malformed [top_holdings] irrelevant. *)
Lemma prepare_portfolio_summary_raw_over_top_witness :
  Engine._prepare_portfolio_summary (fun _ _ => Ok "x"%string)
    [("raw_holdings_df", PList [PDict []]); ("top_holdings", PNum 1)]%string =
  Engine._prepare_portfolio_summary (fun _ _ => Ok "x"%string)
    [("raw_holdings_df", PList [PDict []]); ("top_holdings", PList [])]%string.
Proof.
  apply (prepare_portfolio_summary_raw_over_top (fun _ _ => Ok "x"%string)
           [("raw_holdings_df", PList [PDict []]); ("top_holdings", PList [])]%string
           [("raw_holdings_df", PList [PDict []]); ("top_holdings", PNum 1)]%string
           (PList [PDict []])); [reflexivity|reflexivity|].
  intros k Hk. simpl.
  destruct (String.eqb k "raw_holdings_df"); [reflexivity|].
  destruct (String.eqb k "top_holdings") eqn:E; [|reflexivity].
  apply String.eqb_eq in E. contradiction.
Defined.

(** Extra: two holdings give six lines. *)
Lemma holdings_sections_one_line_per_holding_witness :
  exists lines n,
    Engine.raw_holdings_lines (fun _ _ => Ok "x"%string) (PList [PDict []; PDict []]) = Ok lines /\
    PyOps.py_len (PList [PDict []; PDict []]) = Ok n /\ length lines = (n + 4)%nat.
Proof.
  destruct (Engine.raw_holdings_lines (fun _ _ => Ok "x"%string) (PList [PDict []; PDict []]))
    as [lines|e] eqn:E; [|vm_compute in E; discriminate E].
  destruct (proj1 (holdings_sections_one_line_per_holding (fun _ _ => Ok "x"%string)
                     (PList [PDict []; PDict []]) lines) E) as (n & H1 & H2).
  exists lines, n. auto.
Defined.

(** Extra: a list where the holdings dict is expected. *)
Lemma validate_data_completeness_failures_witness :
  Frontend.validate_data_completeness [("holdings_data", PList [])]%string = Err AttributeError.
Proof.
  apply (proj1 (validate_data_completeness_failures [("holdings_data", PList [])]%string)
           (PList [])); [reflexivity|].
  intros kv C. discriminate C.
Defined.

(** Extra: a snapshot that triggers all five alerts. *)
Lemma generate_alerts_fixed_order_witness :
  exists alerts,
    Frontend.generate_alerts (fun _ _ => Ok "x"%string)
      [("performance_summary", PDict [("total_return", PNum (-1)); ("sharpe_ratio", PNum 0)]);
       ("risk_summary", PDict [("concentration_risk", PNum 1);
                               ("var_95", PNum (- inject_Z 100000000))]);
       ("holdings_data", PDict [])]%string = Ok alerts /\
    map AlertFacts.kind alerts `sublist_of`
      [("warning", "Poor Performance"); ("warning", "Low Risk-Adjusted Returns");
       ("error", "High Concentration Risk"); ("warning", "High Value at Risk");
       ("info", "Limited Diversification")]%string.
Proof.
  destruct (Frontend.generate_alerts (fun _ _ => Ok "x"%string)
      [("performance_summary", PDict [("total_return", PNum (-1)); ("sharpe_ratio", PNum 0)]);
       ("risk_summary", PDict [("concentration_risk", PNum 1);
                               ("var_95", PNum (- inject_Z 100000000))]);
       ("holdings_data", PDict [])]%string) as [alerts|e] eqn:E; [|vm_compute in E; discriminate E].
  exists alerts. split; [reflexivity|].
  exact (generate_alerts_fixed_order _ _ _ E).
Defined.

(** Extra: a holdings dict without [total_holdings]. *)
Lemma generate_alerts_limited_diversification_witness :
  exists alerts,
    Frontend.generate_alerts (fun _ _ => Ok "x"%string) [("holdings_data", PDict [])]%string
      = Ok alerts /\
    In ("info", "Limited Diversification")%string (map AlertFacts.kind alerts).
Proof.
  destruct (Frontend.generate_alerts (fun _ _ => Ok "x"%string) [("holdings_data", PDict [])]%string)
    as [alerts|e] eqn:E; [|vm_compute in E; discriminate E].
  exists alerts. split; [reflexivity|].
  apply (proj2 (generate_alerts_limited_diversification _ _ _ E)).
  exists (PDict []), 0. split; [reflexivity|split; [reflexivity|reflexivity]].
Defined.
